(** * video_info: a shallow embedding of [src/video_info/video_info.cpp]

    The program reads the description of one video file from standard input,
    builds a [VideoFile] (whose constructor validates the container format)
    and prints a report.  The embedding follows the source top to bottom:

    - [Text]      characters, lines and decimal numerals;
    - [Double]    the C++ type [double] as IEEE 754 binary64, on the
                  Standard Library's [SpecFloat], and its decimal renderings;
    - [Ostream]   the formatting state of [std::cout] and its inserters;
    - [Istream]   [std::cin]: [getline], [ignore] and the numeric extractors;
    - [MediaFile], [VideoFile] and [Program] ([main]). *)

From Stdlib Require Import ZArith List Bool Lia.
From Stdlib Require Import Strings.Ascii Strings.String.
From Stdlib Require Import Numbers.DecimalString Numbers.DecimalPos.
From Stdlib Require Import Floats.SpecFloat.
Import ListNotations.

Local Open Scope string_scope.
Local Open Scope Z_scope.

(* ================================================================= *)
(** ** Text *)

Module Text.

(** The line feed, written ['\n'] in the source. *)
Definition LF : ascii := ascii_of_nat 10.
Definition nl : string := String LF "".

(** [std::string(n, c)]. *)
Fixpoint replicate (n : nat) (c : ascii) : string :=
  match n with
  | O => ""
  | S k => String c (replicate k c)
  end.

(** Decimal numeral of an integer, as [num_put] writes a signed integer
    under the default [dec] base: a minus sign for negatives, no plus
    sign, no leading zeros. *)
Definition decimal (z : Z) : string :=
  NilZero.string_of_int (Z.to_int z).

(** Does character [c] occur in [s]? *)
Fixpoint occurs (c : ascii) (s : string) : bool :=
  match s with
  | "" => false
  | String a r => Ascii.eqb a c || occurs c r
  end.

Fixpoint all_chars (p : ascii -> bool) (s : string) : bool :=
  match s with
  | "" => true
  | String a r => p a && all_chars p r
  end.

Definition is_digit (c : ascii) : bool :=
  let n := nat_of_ascii c in (48 <=? n)%nat && (n <=? 57)%nat.

End Text.

(* ================================================================= *)
(** ** The type [int] *)

Module Int.

Definition INT_MAX : Z := 2147483647.
Definition INT_MIN : Z := -2147483648.

Definition in_range (z : Z) : bool := (INT_MIN <=? z) && (z <=? INT_MAX).

End Int.

(* ================================================================= *)
(** ** The type [double] *)

Module Double.

(** A [double] is an IEEE 754 binary64 datum: 53 bits of precision,
    infinities at exponent 1024.  [S754_finite s m e] stands for
    [(-1)^s * m * 2^e]. *)
Definition double : Type := spec_float.

Definition prec : Z := 53.
Definition emax : Z := 1024.

(** Conversion of an integer constant or an [int] operand, as in
    [size * 8] and [const double KB = 1024]. *)
Definition of_Z (z : Z) : double := binary_normalize prec emax z 0 false.

Definition mul (x y : double) : double := SFmul prec emax x y.
Definition div (x y : double) : double := SFdiv prec emax x y.

(** [x <= y] and [x >= y]; both are false when an operand is a NaN. *)
Definition le (x y : double) : bool := SFleb x y.
Definition ge (x y : double) : bool := SFleb y x.

Definition zero : double := S754_zero false.

Definition is_finite (x : double) : bool :=
  match x with
  | S754_zero _ | S754_finite _ _ _ => true
  | _ => false
  end.

Definition sign (x : double) : bool :=
  match x with
  | S754_zero s | S754_infinity s | S754_finite s _ _ => s
  | S754_nan => false
  end.

(** The magnitude of a finite datum as an exact fraction [num / den]. *)
Definition num (x : double) : Z :=
  match x with
  | S754_finite _ m e => if 0 <=? e then Zpos m * 2 ^ e else Zpos m
  | _ => 0
  end.

Definition den (x : double) : Z :=
  match x with
  | S754_finite _ m e => if 0 <=? e then 1 else 2 ^ (- e)
  | _ => 1
  end.

(** [static_cast<int>(x)]: the fractional part is discarded (truncation
    toward zero).  The conversion is defined only when the truncated
    value fits in an [int]; otherwise the behaviour of the program is
    undefined, which [None] records. *)
Definition truncate (x : double) : option Z :=
  match x with
  | S754_zero _ => Some 0
  | S754_finite s _ _ => Some ((if s then -1 else 1) * (num x / den x))
  | _ => None
  end.

Definition to_int (x : double) : option Z :=
  match truncate x with
  | Some z => if Int.in_range z then Some z else None
  | None => None
  end.

(** *** Decimal renderings *)

(** Nearest integer to [n / d], ties to the even one: the rounding of
    [printf] under the default rounding direction. *)
Definition round_half_even (n d : Z) : Z :=
  let q := n / d in
  match (2 * (n mod d)) ?= d with
  | Lt => q
  | Gt => q + 1
  | Eq => if Z.even q then q else q + 1
  end.

(** Integer toward zero from [n / d]: what a truncating renderer
    would keep. *)
Definition round_down (n d : Z) : Z := n / d.

(** [scaled rnd x k] is the magnitude of [x] times [10^k], made an
    integer by [rnd]. *)
Definition scaled (rnd : Z -> Z -> Z) (x : double) (k : Z) : Z :=
  if 0 <=? k then rnd (num x * 10 ^ k) (den x)
  else rnd (num x) (den x * 10 ^ (- k)).

Definition pad_zeros (w : nat) (s : string) : string :=
  Text.replicate (w - String.length s) "0"%char ++ s.

(** The digits of a non-negative integer [n] under [p] decimals:
    integer part, point, fractional part on exactly [p] digits; no point
    when [p = 0]. *)
Definition with_point (n : Z) (p : nat) : string :=
  let unit := 10 ^ Z.of_nat p in
  Text.decimal (n / unit) ++
  match p with
  | O => ""
  | S _ => "." ++ pad_zeros p (Text.decimal (n mod unit))
  end.

Definition sign_text (x : double) : string := if sign x then "-" else "".

(** Fixed notation with [p] decimals under rounding [rnd]. *)
Definition fixed_with (rnd : Z -> Z -> Z) (p : nat) (x : double) : string :=
  match x with
  | S754_nan => "nan"
  | S754_infinity _ => sign_text x ++ "inf"
  | _ => sign_text x ++ with_point (scaled rnd x (Z.of_nat p)) p
  end.

(** The conversion [%.pf] of [printf], which is also what the stream
    writes under [std::fixed] with precision [p]. *)
Definition fixed (p : nat) (x : double) : string :=
  fixed_with round_half_even p x.

(** [std::to_string(double)] is specified as [sprintf] with ["%f"]:
    always six decimals. *)
Definition to_string (x : double) : string := fixed 6 x.

(** *** The general notation [%g]

    Under the default [floatfield] a stream writes a [double] as [printf]
    does with [%.Pg], [P] being the stream's precision: [P] significant
    digits, fixed notation when the decimal exponent [X] satisfies
    [-4 <= X < P] and scientific notation otherwise, trailing zeros
    removed. *)

(** Least [k] with [n * 10^k >= d], searched for under [fuel]. *)
Fixpoint shifts_to_unit (fuel : nat) (n d : Z) : nat :=
  match fuel with
  | O => O
  | S f => if d <=? n then O else S (shifts_to_unit f (10 * n) d)
  end.

(** The [X] with [10^X <= x < 10^(X+1)], for a finite [x] other than
    zero. *)
Definition decimal_exponent (x : double) : Z :=
  if den x <=? num x
  then Z.of_nat (String.length (Text.decimal (num x / den x))) - 1
  else - Z.of_nat (shifts_to_unit (S (Z.to_nat (Z.log2 (den x)))) (num x) (den x)).

(** The [P] significant digits of [x], as an integer, and the exponent
    of the first of them once rounded. *)
Definition significant (P : nat) (x : double) : Z * Z :=
  let X0 := decimal_exponent x in
  let N := scaled round_half_even x (Z.of_nat P - 1 - X0) in
  if N =? 10 ^ Z.of_nat P then (10 ^ (Z.of_nat P - 1), X0 + 1) else (N, X0).

Fixpoint strip_zeros (s : string) : string :=
  match s with
  | "" => ""
  | String c r =>
      match strip_zeros r with
      | "" => if Ascii.eqb c "0" then "" else String c ""
      | r' => String c r'
      end
  end.

Definition point_then (frac : string) : string :=
  match strip_zeros frac with
  | "" => ""
  | f => "." ++ f
  end.

Definition general_digits (P : nat) (N X : Z) : string :=
  let D := Text.decimal N in
  if (-4 <=? X) && (X <? Z.of_nat P) then
    if 0 <=? X then
      let k := S (Z.to_nat X) in
      substring 0 k D ++ point_then (substring k (String.length D - k) D)
    else
      "0" ++ point_then (Text.replicate (Z.to_nat (- X - 1)) "0"%char ++ D)
  else
    substring 0 1 D ++ point_then (substring 1 (String.length D - 1) D) ++
    "e" ++ (if X <? 0 then "-" else "+") ++ pad_zeros 2 (Text.decimal (Z.abs X)).

Definition general (precision : nat) (x : double) : string :=
  let P := match precision with O => 1%nat | _ => precision end in
  match x with
  | S754_nan => "nan"
  | S754_infinity _ => sign_text x ++ "inf"
  | S754_zero _ => sign_text x ++ "0"
  | S754_finite _ _ _ =>
      let '(N, X) := significant P x in sign_text x ++ general_digits P N X
  end.

End Double.

(* ================================================================= *)
(** ** Output streams *)

Module Ostream.

Import Text.

Variant floatfield := general_notation | fixed_notation.

(** The part of a [std::ostream] that formatted output depends on,
    and the characters written so far. *)
Record ostream : Type := mk_ostream {
  fill : ascii;
  width : nat;
  notation : floatfield;
  precision : nat;
  written : string
}.

(** A stream as the library hands it over: blank fill, no field width,
    general notation, precision 6, nothing written. *)
Definition fresh : ostream := mk_ostream " " 0 general_notation 6 "".

(** Padding to the field width.  [adjustfield] is never set by the
    program, so the fill characters go to the left. *)
Definition padded (os : ostream) (text : string) : string :=
  replicate (width os - String.length text) (fill os) ++ text.

(** Every formatted inserter pads to the field width, then resets the
    width to zero. *)
Definition insert (text : string) (os : ostream) : ostream :=
  mk_ostream (fill os) 0 (notation os) (precision os)
             (written os ++ padded os text).

(** [os << "literal"] and [os << std::string]. *)
Definition put_string (s : string) : ostream -> ostream := insert s.

(** [os << int]. *)
Definition put_int (z : Z) : ostream -> ostream := insert (decimal z).

Definition double_text (os : ostream) (x : Double.double) : string :=
  match notation os with
  | fixed_notation => Double.fixed (precision os) x
  | general_notation => Double.general (precision os) x
  end.

(** [os << double]. *)
Definition put_double (x : Double.double) (os : ostream) : ostream :=
  insert (double_text os x) os.

(** The manipulators used by the program. *)
Definition setfill (c : ascii) (os : ostream) : ostream :=
  mk_ostream c (width os) (notation os) (precision os) (written os).

Definition setw (n : nat) (os : ostream) : ostream :=
  mk_ostream (fill os) n (notation os) (precision os) (written os).

Definition fixed (os : ostream) : ostream :=
  mk_ostream (fill os) (width os) fixed_notation (precision os) (written os).

Definition setprecision (n : nat) (os : ostream) : ostream :=
  mk_ostream (fill os) (width os) (notation os) n (written os).

(** [std::endl]: a line feed (the flush is not observable here).  It is
    written unformatted and leaves the width alone. *)
Definition endl (os : ostream) : ostream :=
  mk_ostream (fill os) (width os) (notation os) (precision os)
             (written os ++ nl).

(** A stream in the state the library hands [std::cout] over in, but
    for what has been written: the state [main] and [displayInfo] find. *)
Definition plain (os : ostream) : Prop :=
  width os = 0%nat /\ notation os = general_notation /\ precision os = 6%nat.

(** [os'] is [os] with more written, none of it the character [c]. *)
Definition extends_without (c : ascii) (os os' : ostream) : Prop :=
  plain os ->
  plain os' /\ occurs c (written os') = occurs c (written os).

Declare Scope stream_scope.
Delimit Scope stream_scope with stream.
Notation "os << f" := (f os)
  (at level 50, left associativity, only parsing) : stream_scope.

End Ostream.

(* ================================================================= *)
(** ** Standard input *)

Module Istream.

Import Text.

(** Standard input is the sequence of characters not yet read.  The
    state bits of the stream need no field of their own: [failbit] is
    what an extractor reports ([None] below) and the program clears it
    before anything else reads; [eofbit] is set exactly when the
    sequence is exhausted, where every read fails anyway. *)
Definition istream : Type := string.

(** [std::getline(in, str)]: the characters up to the next line feed,
    which is consumed and not stored; everything left when there is no
    line feed. *)
Fixpoint getline (inp : istream) : string * istream :=
  match inp with
  | "" => ("", "")
  | String c r =>
      if Ascii.eqb c LF then ("", r)
      else let '(line, rest) := getline r in (String c line, rest)
  end.

(** [in.ignore(n, delim)]: discards characters until [n] of them are
    gone or [delim] has been discarded, whichever comes first. *)
Fixpoint ignore (n : Z) (delim : ascii) (inp : istream) : istream :=
  match inp with
  | "" => ""
  | String c r =>
      if n <=? 0 then inp
      else if Ascii.eqb c delim then r
      else ignore (n - 1) delim r
  end.

(** [in.ignore()]: one character, whatever it is. *)
Definition ignore_one (inp : istream) : istream :=
  match inp with
  | "" => ""
  | String _ r => r
  end.

(** [isspace] in the "C" locale. *)
Definition is_space (c : ascii) : bool :=
  let n := nat_of_ascii c in
  (n =? 32)%nat || ((9 <=? n)%nat && (n <=? 13)%nat).

(** The white space an extractor skips first ([skipws] is on). *)
Fixpoint skipws (inp : istream) : istream :=
  match inp with
  | "" => ""
  | String c r => if is_space c then skipws r else inp
  end.

(** The longest prefix made of decimal digits, and what follows. *)
Fixpoint span_digits (s : string) : string * string :=
  match s with
  | "" => ("", "")
  | String c r =>
      if is_digit c
      then let '(ds, rest) := span_digits r in (String c ds, rest)
      else ("", s)
  end.

Definition digit_value (c : ascii) : Z := Z.of_nat (nat_of_ascii c) - 48.

Fixpoint digits_value (acc : Z) (ds : string) : Z :=
  match ds with
  | "" => acc
  | String c r => digits_value (10 * acc + digit_value c) r
  end.

(** An optional sign: [true] for a minus. *)
Definition take_sign (s : string) : bool * string :=
  match s with
  | String "-" r => (true, r)
  | String "+" r => (false, r)
  | _ => (false, s)
  end.

(** *** [in >> int]

    After the white space: an optional sign and the decimal digits that
    follow.  No digit at all, or a value that does not fit an [int],
    sets [failbit]; the characters scanned are consumed either way. *)
Definition extract_int (inp : istream) : option Z * istream :=
  let '(neg, s1) := take_sign (skipws inp) in
  let '(ds, rest) := span_digits s1 in
  match ds with
  | "" => (None, rest)
  | _ =>
      let v := (if neg then -1 else 1) * digits_value 0 ds in
      if Int.in_range v then (Some v, rest) else (None, rest)
  end.

(** *** [in >> double]

    The library first gathers the characters that can belong to a
    floating literal, then converts what it gathered with [strtod].  The
    gathering stops at the first character that cannot continue the
    literal: a second point, a point after the exponent mark, a second
    exponent mark, an exponent mark before any digit, a sign anywhere
    but at the start or right after the exponent mark. *)

Record scan := mk_scan {
  gathered : string;     (* in reverse order *)
  found_mantissa : bool;
  found_dec : bool;
  found_sci : bool
}.

Definition push (c : ascii) (st : scan) : scan :=
  mk_scan (String c (gathered st)) (found_mantissa st) (found_dec st) (found_sci st).

Fixpoint rev_onto (s acc : string) : string :=
  match s with
  | "" => acc
  | String c r => rev_onto r (String c acc)
  end.

Definition is_exp_mark (c : ascii) : bool := Ascii.eqb c "e" || Ascii.eqb c "E".
Definition is_sign (c : ascii) : bool := Ascii.eqb c "+" || Ascii.eqb c "-".

(** [after_mark] tells that the previous character was the exponent
    mark, the one place inside the literal where a sign is taken. *)
Fixpoint gather (st : scan) (after_mark : bool) (inp : istream) : scan * istream :=
  match inp with
  | "" => (st, "")
  | String c r =>
      if after_mark && is_sign c then gather (push c st) false r
      else if is_digit c then
        gather (mk_scan (String c (gathered st)) true (found_dec st) (found_sci st)) false r
      else if Ascii.eqb c "." && negb (found_dec st) && negb (found_sci st) then
        gather (mk_scan (String c (gathered st)) (found_mantissa st) true (found_sci st)) false r
      else if is_exp_mark c && negb (found_sci st) && found_mantissa st then
        gather (mk_scan (String "e" (gathered st)) true (found_dec st) true) true r
      else (st, inp)
  end.

(** Leading zeros are all consumed and gathered as a single one. *)
Fixpoint skip_zeros (inp : istream) : istream :=
  match inp with
  | String "0" r => skip_zeros r
  | _ => inp
  end.

Definition gather_float (inp : istream) : string * istream :=
  let '(neg, s1) := take_sign inp in
  let signed := match inp with
                | String "-" _ => "-"
                | String "+" _ => "+"
                | _ => ""
                end in
  let st0 := match s1 with
             | String "0" _ => mk_scan "0" true false false
             | _ => mk_scan "" false false false
             end in
  let '(st, rest) := gather st0 false (skip_zeros s1) in
  (signed ++ rev_onto (gathered st) "", rest).

(** The binary64 datum nearest to [(-1)^neg * m * 10^k], ties to even. *)
Definition of_decimal (neg : bool) (m k : Z) : Double.double :=
  if m =? 0 then S754_zero neg
  else if 0 <=? k then
    binary_normalize Double.prec Double.emax
      ((if neg then -1 else 1) * (m * 10 ^ k)) 0 false
  else
    let '(q, e, loc) :=
      SFdiv_core_binary Double.prec Double.emax m 0 (10 ^ (- k)) 0 in
    binary_round_aux Double.prec Double.emax neg q e loc.

(** [strtod] on the gathered characters, demanding that all of them
    take part in the conversion. *)
Definition strtod_all (s : string) : option Double.double :=
  let '(neg, s1) := take_sign s in
  let '(ip, s2) := span_digits s1 in
  let '(fp, s3) := match s2 with
                   | String "." r => span_digits r
                   | _ => ("", s2)
                   end in
  match ip ++ fp with
  | "" => None
  | mant =>
      let m := digits_value 0 mant in
      let shift := - Z.of_nat (String.length fp) in
      match s3 with
      | "" => Some (of_decimal neg m shift)
      | String "e" r =>
          let '(eneg, s4) := take_sign r in
          match span_digits s4 with
          | (String d ds, "") =>
              let e := (if eneg then -1 else 1) * digits_value 0 (String d ds) in
              Some (of_decimal neg m (e + shift))
          | _ => None
          end
      | _ => None
      end
  end.

(** A conversion that fails, or overflows to an infinity, sets
    [failbit]. *)
Definition extract_double (inp : istream) : option Double.double * istream :=
  let '(text, rest) := gather_float (skipws inp) in
  match strtod_all text with
  | Some (S754_infinity _) | None => (None, rest)
  | Some x => (Some x, rest)
  end.

End Istream.

(* ================================================================= *)
(** ** Exceptions *)

(** The one exception class the program throws; [what] is the virtual
    [std::exception::what]. *)
Variant exception : Type :=
  | invalid_argument (what_arg : string).

Definition what (e : exception) : string :=
  match e with
  | invalid_argument w => w
  end.

(** A computation that returns or throws. *)
Variant result (A : Type) : Type :=
  | Return (a : A)
  | Throw (e : exception).

Arguments Return {A} a.
Arguments Throw {A} e.

(* ================================================================= *)
(** ** [class MediaFile] *)

Module MediaFile.

Import Double.

(** [std::find(first, last, value)] over a vector, the iterator being
    the index it stands at: the index of the first element equal to
    [value], the length of the vector when there is none. *)
Fixpoint find (v : list string) (value : string) : nat :=
  match v with
  | [] => O
  | x :: r => if String.eqb x value then O else S (find r value)
  end.

Definition isValidFormat (format : string) (validFormats : list string) : bool :=
  negb (Nat.eqb (find validFormats format) (List.length validFormats)).

Definition KB : double := of_Z 1024.
Definition MB : double := mul KB (of_Z 1024).
Definition GB : double := mul MB (of_Z 1024).

Definition formatSize (size_in_bytes : double) : string :=
  if ge size_in_bytes GB then to_string (div size_in_bytes GB) ++ " GB"
  else if ge size_in_bytes MB then to_string (div size_in_bytes MB) ++ " MB"
  else if ge size_in_bytes KB then to_string (div size_in_bytes KB) ++ " KB"
  else to_string size_in_bytes ++ " bytes".

End MediaFile.

(* ================================================================= *)
(** ** [class VideoFile] *)

Module VideoFile.

Import Text Double Ostream.
Local Open Scope stream_scope.

(** The data members, those of the base class first. *)
Record VideoFile : Type := mk_VideoFile {
  filename : string;
  duration : double;
  size : double;
  format : string;
  width : Z;
  height : Z;
  frameRate : double;
  videoCodec : string;
  supportedFormats : list string
}.

Definition default_supportedFormats : list string :=
  [".mp4"; ".mkv"; ".avi"; ".mov"].

Definition unsupported_message : string :=
  "Unsupported video format. Supported formats: mp4, mkv, avi, mov".

Definition validateFormat (this : VideoFile) : result unit :=
  if negb (MediaFile.isValidFormat (format this) (supportedFormats this))
  then Throw (invalid_argument unsupported_message)
  else Return tt.

(** The constructor: the members are initialised from the arguments as
    they are, then the body runs [validateFormat]. *)
Definition construct (name : string) (dur sz : double) (fmt : string)
    (w h : Z) (fps : double) (codec : string) : result VideoFile :=
  let this :=
    mk_VideoFile name dur sz fmt w h fps codec default_supportedFormats in
  match validateFormat this with
  | Throw e => Throw e
  | Return _ => Return this
  end.

Definition calculateBitrate (this : VideoFile) : double :=
  div (mul (size this) (of_Z 8)) (mul (duration this) (of_Z 1000000)).

Definition getResolutionName (this : VideoFile) : string :=
  if (3840 <=? width this) && (2160 <=? height this) then "4K"
  else if (1920 <=? width this) && (1080 <=? height this) then "1080p"
  else if (1280 <=? width this) && (720 <=? height this) then "720p"
  else "SD".

(** [displayInfo], one definition for each statement of its body.  The
    three [static_cast<int>(duration)] yield the same [int], here [d];
    [/] and [%] on [int] truncate toward zero. *)
Definition display_header (this : VideoFile) (cout : ostream) : ostream :=
  cout << put_string (nl ++ "=== Video Information ===" ++ nl)
       << put_string "Filename: " << put_string (filename this)
       << put_string (format this) << put_string nl.

Definition display_duration (d : Z) (cout : ostream) : ostream :=
  let hours := Z.quot d 3600 in
  let minutes := Z.quot (Z.rem d 3600) 60 in
  let seconds := Z.rem d 60 in
  cout << put_string "Duration: "
       << put_int hours << put_string ":"
       << setfill "0" << setw 2 << put_int minutes << put_string ":"
       << setfill "0" << setw 2 << put_int seconds << put_string nl.

Definition display_details (this : VideoFile) (cout : ostream) : ostream :=
  cout << put_string "Size: " << put_string (MediaFile.formatSize (size this))
       << put_string nl
       << put_string "Resolution: " << put_int (width this) << put_string "x"
       << put_int (height this)
       << put_string " (" << put_string (getResolutionName this)
       << put_string (")" ++ nl)
       << put_string "Frame Rate: " << put_double (frameRate this)
       << put_string (" fps" ++ nl)
       << put_string "Video Codec: " << put_string (videoCodec this)
       << put_string nl
       << put_string "Bitrate: " << Ostream.fixed << setprecision 2
       << put_double (calculateBitrate this) << put_string (" Mbps" ++ nl)
       << put_string ("=====================" ++ nl).

(** [None]: the conversion of the duration to [int] is undefined. *)
Definition displayInfo (this : VideoFile) (cout : ostream) : option ostream :=
  match to_int (duration this) with
  | None => None
  | Some d =>
      Some (cout << display_header this << display_duration d
                 << display_details this)
  end.

End VideoFile.

(* ================================================================= *)
(** ** [main] *)

Module Program.

Import Text Double Ostream Istream.
Local Open Scope stream_scope.

(** *** The validation loop

    The five numeric fields are read by the same loop,
[[
      while (!(std::cin >> x) || x <= 0) {
          std::cout << message;
          std::cin.clear();
          std::cin.ignore(10000, '\n');
      }
]]
    which differs only in the type of [x] and in the message. *)
Section ValidationLoop.

Context {T : Type}.
Variable extract : istream -> option T * istream.
Variable nonpositive : T -> bool.
Variable message : string.

(** The loop condition: the value to keep when it is false, and the
    input left either way. *)
Definition attempt (cin : istream) : option T * istream :=
  match extract cin with
  | (Some x, rest) => if nonpositive x then (None, rest) else (Some x, rest)
  | (None, rest) => (None, rest)
  end.

(** [fuel] bounds the number of times the condition is evaluated. *)
Fixpoint read_loop (fuel : nat) (cin : istream) (cout : ostream)
    : option (T * istream * ostream) :=
  match fuel with
  | O => None
  | S fuel' =>
      match attempt cin with
      | (Some x, rest) => Some (x, rest, cout)
      | (None, rest) =>
          read_loop fuel' (ignore 10000 LF rest)
                    (cout << put_string message)
      end
  end.

(** Each turn that fails removes a character or more from the input
    unless none is left, and with none left every later turn fails as
    well: one turn more than there are characters decides the loop.
    [None] then stands for a loop that prompts for ever. *)
Definition read_positive (cin : istream) (cout : ostream)
    : option (T * istream * ostream) :=
  read_loop (S (String.length cin)) cin cout.

End ValidationLoop.

Definition double_nonpositive (x : double) : bool := le x zero.
Definition int_nonpositive (z : Z) : bool := z <=? 0.

(** What the prompts have collected when the loops are over. *)
Record inputs : Type := mk_inputs {
  in_filename : string;
  in_format : string;
  in_duration : double;
  in_size : double;
  in_width : Z;
  in_height : Z;
  in_frameRate : double;
  in_codec : string
}.

Definition bind {A B : Type} (m : option A) (k : A -> option B) : option B :=
  match m with
  | Some a => k a
  | None => None
  end.

Notation "' p <- m ;; k" := (bind m (fun p => k))
  (at level 61, p pattern, m at next level, right associativity).

(** Lines 111 to 152 of [main]: the prompts and the reads. *)
Definition collect (cin : istream) (cout : ostream) : option (inputs * ostream) :=
  let cout := cout << put_string ("Enter video information:" ++ nl) in
  let cout := cout << put_string "Filename (without extension): " in
  let '(filename, cin) := getline cin in
  let cout := cout << put_string "Format (e.g., .mp4, .mkv): " in
  let '(format, cin) := getline cin in
  let cout := cout << put_string "Duration (in seconds): " in
  '(duration, cin, cout) <-
     read_positive extract_double double_nonpositive
                   "Please enter a valid duration: " cin cout ;;
  let cout := cout << put_string "Size (in bytes): " in
  '(size, cin, cout) <-
     read_positive extract_double double_nonpositive
                   "Please enter a valid size: " cin cout ;;
  let cout := cout << put_string "Width (pixels): " in
  '(width, cin, cout) <-
     read_positive extract_int int_nonpositive
                   "Please enter a valid width: " cin cout ;;
  let cout := cout << put_string "Height (pixels): " in
  '(height, cin, cout) <-
     read_positive extract_int int_nonpositive
                   "Please enter a valid height: " cin cout ;;
  let cout := cout << put_string "Frame Rate (fps): " in
  '(frameRate, cin, cout) <-
     read_positive extract_double double_nonpositive
                   "Please enter a valid frame rate: " cin cout ;;
  let cin := ignore_one cin in
  let cout := cout << put_string "Video Codec (e.g., H.264, H.265): " in
  let '(codec, cin) := getline cin in
  Some (mk_inputs filename format duration size width height frameRate codec,
        cout).

Definition construct_from (i : inputs) : result VideoFile.VideoFile :=
  VideoFile.construct (in_filename i) (in_duration i) (in_size i)
    (in_format i) (in_width i) (in_height i) (in_frameRate i) (in_codec i).

(** What a run of the program amounts to. *)
Record exit : Type := mk_exit {
  stdout : string;
  stderr : string;
  status : Z
}.

Variant behaviour : Type :=
  | Exits (e : exit)
  | Hangs        (* prompts for ever, the input being exhausted *)
  | Undefined.   (* undefined behaviour was reached *)

Definition main (stdin : istream) : behaviour :=
  match collect stdin fresh with
  | None => Hangs
  | Some (i, cout) =>
      match construct_from i with
      | Throw e =>
          let cerr := fresh << put_string "Error: " << put_string (what e)
                            << endl in
          Exits (mk_exit (written cout) (written cerr) 1)
      | Return video =>
          match VideoFile.displayInfo video cout with
          | None => Undefined
          | Some cout' => Exits (mk_exit (written cout') "" 0)
          end
      end
  end.

End Program.

(* ================================================================= *)
(** ** What the specification says, in its own words *)

Module Spec.

Import Text Double Istream VideoFile.

(** "one of: .mp4, .mkv, .avi, .mov" *)
Definition supported (format : string) : Prop :=
  format = ".mp4" \/ format = ".mkv" \/ format = ".avi" \/ format = ".mov".

(** "H:MM:SS (hours unpadded, minutes/seconds zero-padded to 2 digits,
    computed via integer division/modulo on the truncated-to-integer
    duration)", [d] being the truncated duration. *)
Definition hms (d : Z) : string :=
  decimal (Z.quot d 3600) ++ ":" ++
  pad_zeros 2 (decimal (Z.quot (Z.rem d 3600) 60)) ++ ":" ++
  pad_zeros 2 (decimal (Z.rem d 60)).

(** The report of section 6, line by line, for a given rendering of the
    bitrate: what follows the Duration line first, then the whole. *)
Definition details_with (bitrate : string) (v : VideoFile) : string :=
  "Size: " ++ MediaFile.formatSize (size v) ++ nl ++
  "Resolution: " ++ decimal (width v) ++ "x" ++ decimal (height v) ++
     " (" ++ getResolutionName v ++ ")" ++ nl ++
  "Frame Rate: " ++ general 6 (frameRate v) ++ " fps" ++ nl ++
  "Video Codec: " ++ videoCodec v ++ nl ++
  "Bitrate: " ++ bitrate ++ " Mbps" ++ nl ++
  "=====================" ++ nl.

Definition report_with (bitrate : string) (v : VideoFile) (d : Z) : string :=
  nl ++ "=== Video Information ===" ++ nl ++
  "Filename: " ++ filename v ++ format v ++ nl ++
  "Duration: " ++ hms d ++ nl ++
  details_with bitrate v.


Definition report (v : VideoFile) (d : Z) : string :=
  report_with (fixed 2 (calculateBitrate v)) v d.

(** "display truncates to 2 decimal places" *)
Definition truncated_2 (x : double) : string := fixed_with round_down 2 x.

(** "discard the erroneous input up to the next line boundary" *)
Definition discard_line (cin : istream) : istream := snd (getline cin).

(** "a non-numeric token": one whose first character can start no
    number, being neither a digit, a sign nor a point (nor white space,
    which is skipped). *)
Definition starts_no_number (c : ascii) : bool :=
  negb (is_space c || is_digit c || is_sign c || Ascii.eqb c ".").


(** A record with given numeric members, for the vectors of section 8. *)
Definition sample (dur sz : double) (w h : Z) : VideoFile :=
  mk_VideoFile "movie" dur sz ".mp4" w h (of_Z 30) "H.264"
               default_supportedFormats.

End Spec.

(* ================================================================= *)
(** ** Notions used to state further properties of the code *)

Module Observe.

Import Text Double Ostream Istream VideoFile.

(** The classes [getResolutionName] answers, numbered from the lowest. *)
Definition class_rank (name : string) : Z :=
  if String.eqb name "4K" then 3
  else if String.eqb name "1080p" then 2
  else if String.eqb name "720p" then 1
  else 0.

(** A binary64 datum as the hardware has it: mantissa and exponent in
    canonical form, within the exponent range. *)
Definition valid (x : double) : bool := valid_binary prec emax x.

(** The conversion [static_cast<int>(x)] is defined: [x] is finite and
    its integer part is an [int], that is [x < 2^31] when [x] is not
    negative and [x > -(2^31 + 1)] when it is. *)
Definition fits_int (x : double) : Prop :=
  is_finite x = true /\
  num x < (if sign x then 2147483649 else 2147483648) * den x.

(** No decimal digit occurs in [s]. *)
Definition no_digit (s : string) : bool :=
  all_chars (fun c => negb (is_digit c)) s.

(** The report as written on a stream that [std::fixed] and
    [std::setprecision(2)] have been applied to before: the frame rate
    comes out in fixed notation with two decimals as well. *)
Definition report_fixed (v : VideoFile) (d : Z) : string :=
  nl ++ "=== Video Information ===" ++ nl ++
  "Filename: " ++ filename v ++ format v ++ nl ++
  "Duration: " ++ Spec.hms d ++ nl ++
  "Size: " ++ MediaFile.formatSize (size v) ++ nl ++
  "Resolution: " ++ decimal (width v) ++ "x" ++ decimal (height v) ++
     " (" ++ getResolutionName v ++ ")" ++ nl ++
  "Frame Rate: " ++ Double.fixed 2 (frameRate v) ++ " fps" ++ nl ++
  "Video Codec: " ++ videoCodec v ++ nl ++
  "Bitrate: " ++ Double.fixed 2 (calculateBitrate v) ++ " Mbps" ++ nl ++
  "=====================" ++ nl.

(** The nine prompts of a session in which no value is refused. *)
Definition prompts : string :=
  "Enter video information:" ++ nl ++
  "Filename (without extension): " ++ "Format (e.g., .mp4, .mkv): " ++
  "Duration (in seconds): " ++ "Size (in bytes): " ++
  "Width (pixels): " ++ "Height (pixels): " ++ "Frame Rate (fps): " ++
  "Video Codec (e.g., H.264, H.265): ".

(** From input [r0] the five numeric reads of [main] each succeed at the
    first attempt, with the values [dur], [sz], [w], [h] and [fps], and
    leave [r5]. *)
Definition first_try (r0 : istream) (dur sz : double) (w h : Z)
    (fps : double) (r5 : istream) : Prop :=
  exists r1 r2 r3 r4 : istream,
    (extract_double r0 = (Some dur, r1) /\ le dur zero = false) /\
    (extract_double r1 = (Some sz, r2) /\ le sz zero = false) /\
    (extract_int r2 = (Some w, r3) /\ 0 < w) /\
    (extract_int r3 = (Some h, r4) /\ 0 < h) /\
    (extract_double r4 = (Some fps, r5) /\ le fps zero = false).

(** [k] copies of [s] in a row. *)
Fixpoint copies (k : nat) (s : string) : string :=
  match k with
  | O => ""
  | S k' => s ++ copies k' s
  end.

End Observe.

(* ================================================================= *)
(** * Properties *)

Import Text Double Ostream Istream.

(** ** Strings *)

Lemma append_assoc (a b c : string) : (a ++ b) ++ c = a ++ (b ++ c).
Proof.
  induction a as [|x a IH]; simpl; [reflexivity | now rewrite IH].
Qed.


Lemma occurs_append (c : ascii) (a b : string) :
  occurs c (a ++ b) = occurs c a || occurs c b.
Proof.
  induction a as [|x a IH]; simpl; [reflexivity|].
  rewrite IH. now rewrite orb_assoc.
Qed.

(** ** Format validation *)

Lemma find_In (l : list string) (x : string) :
  MediaFile.find l x <> List.length l <-> In x l.
Proof.
  induction l as [|y l IH]; simpl.
  - split; [intros H; now elim H | intros []].
  - destruct (String.eqb_spec y x) as [->|Hne].
    + split; [now left | discriminate].
    + split.
      * intros H. right. apply IH. intros E. apply H. now rewrite E.
      * intros [E | Hin]; [now elim Hne|].
        intros E. injection E as E. now apply IH in Hin.
Qed.

Lemma isValidFormat_In (format : string) (l : list string) :
  MediaFile.isValidFormat format l = true <-> In format l.
Proof.
  unfold MediaFile.isValidFormat.
  rewrite negb_true_iff, Nat.eqb_neq. apply find_In.
Qed.

Lemma supported_In (format : string) :
  Spec.supported format <-> In format VideoFile.default_supportedFormats.
Proof.
  unfold Spec.supported, VideoFile.default_supportedFormats. simpl.
  intuition congruence.
Qed.

Lemma construct_valid (name : string) (dur sz : double) (fmt : string)
    (w h : Z) (fps : double) (codec : string) :
  MediaFile.isValidFormat fmt VideoFile.default_supportedFormats = true ->
  VideoFile.construct name dur sz fmt w h fps codec =
  Return (VideoFile.mk_VideoFile name dur sz fmt w h fps codec
            VideoFile.default_supportedFormats).
Proof.
  intros H. unfold VideoFile.construct, VideoFile.validateFormat.
  cbn [VideoFile.format VideoFile.supportedFormats]. now rewrite H.
Qed.

Lemma construct_invalid (name : string) (dur sz : double) (fmt : string)
    (w h : Z) (fps : double) (codec : string) :
  MediaFile.isValidFormat fmt VideoFile.default_supportedFormats = false ->
  VideoFile.construct name dur sz fmt w h fps codec =
  Throw (invalid_argument VideoFile.unsupported_message).
Proof.
  intros H. unfold VideoFile.construct, VideoFile.validateFormat.
  cbn [VideoFile.format VideoFile.supportedFormats]. now rewrite H.
Qed.

Lemma construct_supported (name : string) (dur sz : double)
    (fmt : string) (w h : Z) (fps : double) (codec : string) :
  Spec.supported fmt ->
  VideoFile.construct name dur sz fmt w h fps codec =
  Return (VideoFile.mk_VideoFile name dur sz fmt w h fps codec
            VideoFile.default_supportedFormats).
Proof.
  intros H. apply construct_valid. now apply isValidFormat_In, supported_In.
Qed.

(** ** Resolution classes *)

(** C1, as the code has it: [getResolutionName] answers "4K" when
    width >= 3840 and height >= 2160, else "1080p" when width >= 1920 and
    height >= 1080, else "720p" when width >= 1280 and height >= 720, else
    "SD", the first test that holds deciding.  On the vectors: (3840,2160)
    is "4K", (1920,1080) is "1080p", (1280,720) is "720p", (640,480) is
    "SD", and (3840,1000) is "720p", its height passing the third test. *)
Theorem getResolutionName_priority :
  (forall v : VideoFile.VideoFile,
      let w := VideoFile.width v in
      let h := VideoFile.height v in
      (3840 <= w /\ 2160 <= h -> VideoFile.getResolutionName v = "4K") /\
      (~ (3840 <= w /\ 2160 <= h) -> 1920 <= w /\ 1080 <= h ->
         VideoFile.getResolutionName v = "1080p") /\
      (~ (1920 <= w /\ 1080 <= h) -> 1280 <= w /\ 720 <= h ->
         VideoFile.getResolutionName v = "720p") /\
      (~ (1280 <= w /\ 720 <= h) -> VideoFile.getResolutionName v = "SD")) /\
  (forall dur sz,
      VideoFile.getResolutionName (Spec.sample dur sz 3840 2160) = "4K" /\
      VideoFile.getResolutionName (Spec.sample dur sz 1920 1080) = "1080p" /\
      VideoFile.getResolutionName (Spec.sample dur sz 1280 720) = "720p" /\
      VideoFile.getResolutionName (Spec.sample dur sz 640 480) = "SD" /\
      VideoFile.getResolutionName (Spec.sample dur sz 3840 1000) = "720p").
Proof.
  split.
  - intros v w h. unfold VideoFile.getResolutionName. fold w h.
    repeat split; intros;
      repeat match goal with
      | |- context [?a <=? ?b] => destruct (Z.leb_spec a b)
      end; cbn [andb]; try reflexivity; lia.
  - intros dur sz. repeat split; reflexivity.
Qed.

Lemma getResolutionName_priority_witness :
  (3840 <= 4096 /\ 2160 <= 2160) /\
  VideoFile.getResolutionName (Spec.sample zero zero 4096 2160) = "4K".
Proof.
  split; [lia|].
  apply (proj1 (proj1 getResolutionName_priority
                  (Spec.sample zero zero 4096 2160))).
  cbn. lia.
Defined.

(** The vector (3840,1000) of C1 does not hold: the answer there is not
    "SD". *)
Lemma getResolutionName_3840_1000_not_SD :
  ~ (forall v : VideoFile.VideoFile,
        VideoFile.width v = 3840 -> VideoFile.height v = 1000 ->
        VideoFile.getResolutionName v = "SD").
Proof.
  intros H.
  specialize (H (Spec.sample zero zero 3840 1000) eq_refl eq_refl).
  discriminate H.
Qed.

(** ** Construction *)

(** C5: the constructor throws if and only if the format is none of
    .mp4, .mkv, .avi, .mov; what it throws is always the one
    [invalid_argument] with the "Unsupported video format" text; it
    throws on ".wmv" and returns on ".mp4". *)
Theorem construct_throws_iff_unsupported :
  (forall name dur sz fmt w h fps codec,
      (VideoFile.construct name dur sz fmt w h fps codec =
         Throw (invalid_argument VideoFile.unsupported_message)
       <-> ~ Spec.supported fmt) /\
      ((exists v, VideoFile.construct name dur sz fmt w h fps codec = Return v)
       <-> Spec.supported fmt) /\
      (forall e, VideoFile.construct name dur sz fmt w h fps codec = Throw e ->
                 e = invalid_argument VideoFile.unsupported_message)) /\
  (forall name dur sz w h fps codec,
      VideoFile.construct name dur sz ".wmv" w h fps codec =
        Throw (invalid_argument VideoFile.unsupported_message) /\
      exists v, VideoFile.construct name dur sz ".mp4" w h fps codec = Return v).
Proof.
  split.
  - intros name dur sz fmt w h fps codec.
    rewrite supported_In, <- isValidFormat_In.
    destruct (MediaFile.isValidFormat fmt VideoFile.default_supportedFormats)
      eqn:E.
    + rewrite (construct_valid _ _ _ _ _ _ _ _ E).
      repeat split; try discriminate; try congruence; eauto.
    + rewrite (construct_invalid _ _ _ _ _ _ _ _ E).
      repeat split; try discriminate; try congruence.
      intros [v Hv]. discriminate Hv.
  - intros. split; [reflexivity | eexists; reflexivity].
Qed.

Lemma construct_throws_iff_unsupported_witness :
  ~ Spec.supported ".flv" /\
  VideoFile.construct "clip" (of_Z 10) (of_Z 2048) ".flv" 640 480 (of_Z 25)
    "VP6" = Throw (invalid_argument VideoFile.unsupported_message).
Proof.
  assert (H : ~ Spec.supported ".flv").
  { unfold Spec.supported. intros [E|[E|[E|E]]]; discriminate E. }
  split; [exact H|].
  apply (proj1 (proj1 construct_throws_iff_unsupported
                  "clip" (of_Z 10) (of_Z 2048) ".flv" 640 480 (of_Z 25) "VP6")).
  exact H.
Defined.

(** C9: for a supported format the constructor returns the record made
    of its arguments as they are, whatever the numeric arguments, zero
    and negative ones included: it checks the format and nothing else. *)
Theorem construct_checks_format_only :
  forall name dur sz fmt w h fps codec,
    Spec.supported fmt ->
    VideoFile.construct name dur sz fmt w h fps codec =
    Return (VideoFile.mk_VideoFile name dur sz fmt w h fps codec
              VideoFile.default_supportedFormats).
Proof.
  intros name dur sz fmt w h fps codec H. now apply construct_supported.
Qed.

Lemma construct_checks_format_only_witness :
  Spec.supported ".mkv" /\
  VideoFile.construct "clip" (of_Z (-5)) zero ".mkv" (-1920) 0 (of_Z (-30)) "" =
  Return (VideoFile.mk_VideoFile "clip" (of_Z (-5)) zero ".mkv" (-1920) 0
            (of_Z (-30)) "" VideoFile.default_supportedFormats).
Proof.
  assert (H : Spec.supported ".mkv") by (right; left; reflexivity).
  split; [exact H|].
  apply (construct_checks_format_only
           "clip" (of_Z (-5)) zero ".mkv" (-1920) 0 (of_Z (-30)) "" H).
Defined.

(** C10: a format is valid exactly when it is equal, character for
    character, to one of the four literals; ".MP4", "mp4", " .mp4" and
    ".mp4 " are not, and the constructor throws on each. *)
Theorem isValidFormat_exact_match :
  (forall fmt,
      MediaFile.isValidFormat fmt VideoFile.default_supportedFormats = true
      <-> fmt = ".mp4" \/ fmt = ".mkv" \/ fmt = ".avi" \/ fmt = ".mov") /\
  (forall fmt name dur sz w h fps codec,
      fmt <> ".mp4" -> fmt <> ".mkv" -> fmt <> ".avi" -> fmt <> ".mov" ->
      VideoFile.construct name dur sz fmt w h fps codec =
      Throw (invalid_argument VideoFile.unsupported_message)) /\
  (forall name dur sz w h fps codec,
      Forall (fun fmt =>
                VideoFile.construct name dur sz fmt w h fps codec =
                Throw (invalid_argument VideoFile.unsupported_message))
             [".MP4"; "mp4"; " .mp4"; ".mp4 "; ".Mkv"; ".mp"; ".mp44"; ""]).
Proof.
  split; [|split].
  - intros fmt. rewrite isValidFormat_In, <- supported_In. reflexivity.
  - intros fmt name dur sz w h fps codec H1 H2 H3 H4.
    apply construct_invalid.
    destruct (MediaFile.isValidFormat fmt VideoFile.default_supportedFormats)
      eqn:E; [|reflexivity].
    apply isValidFormat_In, supported_In in E.
    destruct E as [E|[E|[E|E]]]; congruence.
  - intros. repeat constructor.
Qed.

Lemma isValidFormat_exact_match_witness :
  (".MOV" <> ".mp4" /\ ".MOV" <> ".mkv" /\ ".MOV" <> ".avi" /\ ".MOV" <> ".mov") /\
  VideoFile.construct "clip" (of_Z 10) (of_Z 2048) ".MOV" 640 480 (of_Z 25)
    "H.264" = Throw (invalid_argument VideoFile.unsupported_message).
Proof.
  assert (H : ".MOV" <> ".mp4" /\ ".MOV" <> ".mkv" /\ ".MOV" <> ".avi" /\
              ".MOV" <> ".mov") by (repeat split; discriminate).
  split; [exact H|].
  destruct H as (H1 & H2 & H3 & H4).
  apply (proj1 (proj2 isValidFormat_exact_match) ".MOV" "clip" (of_Z 10)
           (of_Z 2048) 640 480 (of_Z 25) "H.264" H1 H2 H3 H4).
Defined.

(** ** Output streams *)

Lemma plain_fresh : plain fresh.
Proof. repeat split. Qed.

Lemma padded_no_width (os : ostream) (text : string) :
  width os = 0%nat -> padded os text = text.
Proof. unfold padded. now intros ->. Qed.

Lemma written_put_string (s : string) (os : ostream) :
  width os = 0%nat -> written (put_string s os) = written os ++ s.
Proof. intros H. cbn. now rewrite padded_no_width. Qed.

Lemma plain_put_string (s : string) (os : ostream) :
  plain os -> plain (put_string s os).
Proof. intros (_ & H2 & H3). repeat split; assumption. Qed.

(** Evaluation of a chain of inserters down to the text it appends. *)
Ltac run_stream :=
  lazy beta zeta iota delta
    [written width fill notation precision insert put_string put_int
     put_double double_text setw setfill setprecision Ostream.fixed endl
     padded Nat.sub replicate].

(** The three groups of statements of [displayInfo], each as the text
    it appends. *)
Lemma display_header_text (v : VideoFile.VideoFile) (os : ostream) :
  width os = 0%nat ->
  written (VideoFile.display_header v os) =
  written os ++ nl ++ "=== Video Information ===" ++ nl ++
  "Filename: " ++ VideoFile.filename v ++ VideoFile.format v ++ nl.
Proof.
  destruct os as [f w n p wr]. cbn [width written]. intros ->.
  unfold VideoFile.display_header. run_stream.
  rewrite !append_assoc. reflexivity.
Qed.

Lemma display_header_state (v : VideoFile.VideoFile) (os : ostream) :
  plain os -> plain (VideoFile.display_header v os).
Proof.
  destruct os as [f w n p wr]. intros (Hw & Hn & Hp). cbn in Hw, Hn, Hp.
  subst. repeat split.
Qed.

Lemma display_duration_text (d : Z) (os : ostream) :
  width os = 0%nat ->
  written (VideoFile.display_duration d os) =
  written os ++ "Duration: " ++ Spec.hms d ++ nl.
Proof.
  destruct os as [f w n p wr]. cbn [width written]. intros ->.
  unfold VideoFile.display_duration, Spec.hms, pad_zeros. run_stream.
  rewrite !append_assoc. reflexivity.
Qed.

Lemma display_duration_state (d : Z) (os : ostream) :
  plain os -> plain (VideoFile.display_duration d os).
Proof.
  destruct os as [f w n p wr]. intros (Hw & Hn & Hp). cbn in Hw, Hn, Hp.
  subst. repeat split.
Qed.

Lemma display_details_text (v : VideoFile.VideoFile) (os : ostream) :
  plain os ->
  written (VideoFile.display_details v os) =
  written os ++
  "Size: " ++ MediaFile.formatSize (VideoFile.size v) ++ nl ++
  "Resolution: " ++ decimal (VideoFile.width v) ++ "x" ++
     decimal (VideoFile.height v) ++
     " (" ++ VideoFile.getResolutionName v ++ ")" ++ nl ++
  "Frame Rate: " ++ general 6 (VideoFile.frameRate v) ++ " fps" ++ nl ++
  "Video Codec: " ++ VideoFile.videoCodec v ++ nl ++
  "Bitrate: " ++ Double.fixed 2 (VideoFile.calculateBitrate v) ++ " Mbps" ++ nl ++
  "=====================" ++ nl.
Proof.
  destruct os as [f w n p wr]. intros (Hw & Hn & Hp). cbn in Hw, Hn, Hp.
  subst. unfold VideoFile.display_details. run_stream.
  rewrite !append_assoc. reflexivity.
Qed.

Lemma displayInfo_report (v : VideoFile.VideoFile) (d : Z) (os : ostream) :
  plain os ->
  to_int (VideoFile.duration v) = Some d ->
  exists os',
    VideoFile.displayInfo v os = Some os' /\
    written os' = written os ++ Spec.report v d.
Proof.
  intros Hos Hd. unfold VideoFile.displayInfo. rewrite Hd.
  eexists. split; [reflexivity|].
  rewrite display_details_text
    by now apply display_duration_state, display_header_state.
  rewrite display_duration_text by now apply display_header_state.
  rewrite display_header_text by apply Hos.
  unfold Spec.report, Spec.report_with, Spec.details_with.
  now rewrite !append_assoc.
Qed.

(** ** The duration line *)


Lemma den_pos (x : double) : 0 < den x.
Proof.
  destruct x as [s|s| |s m e]; unfold den; try lia.
  destruct (0 <=? e) eqn:E; [lia|].
  apply Z.pow_pos_nonneg; lia.
Qed.

Lemma num_nonneg (x : double) : 0 <= num x.
Proof.
  destruct x as [s|s| |s m e]; unfold num; try lia.
  destruct (0 <=? e) eqn:E; [|lia].
  apply Z.leb_le in E. apply Z.mul_nonneg_nonneg; [lia|].
  apply Z.pow_nonneg; lia.
Qed.

Lemma truncate_value (x : double) (z : Z) :
  truncate x = Some z -> z = (if sign x then -1 else 1) * (num x / den x).
Proof.
  destruct x as [s|s| |s m e]; try discriminate.
  - intros [= <-]. unfold num, den, sign. now destruct s.
  - intros [= <-]. reflexivity.
Qed.


Lemma div_below (n d k : Z) : 0 < d -> (n / d < k <-> n < k * d).
Proof.
  intros Hd. split; intros H.
  - destruct (Z.lt_ge_cases n (k * d)) as [L|L]; [exact L|].
    assert (k <= n / d) by (apply Z.div_le_lower_bound; lia). lia.
  - apply Z.div_lt_upper_bound; lia.
Qed.

Lemma to_int_defined_iff (x : double) :
  to_int x <> None <->
  is_finite x = true /\
  num x < (if sign x then 2147483649 else 2147483648) * den x.
Proof.
  unfold to_int. pose proof (den_pos x) as D. pose proof (num_nonneg x) as N.
  destruct x as [s|s| |s m e]; cbn [truncate is_finite sign].
  - cbn. split; [intros _; split; [reflexivity|destruct s; lia] | discriminate].
  - split; [intros H; now elim H | intros [H _]; discriminate H].
  - split; [intros H; now elim H | intros [H _]; discriminate H].
  - set (y := S754_finite s m e) in *.
    assert (Q : 0 <= num y / den y) by (apply Z.div_pos; lia).
    unfold Int.in_range, Int.INT_MIN, Int.INT_MAX.
    destruct s.
    + pose proof (div_below (num y) (den y) 2147483649 D) as A.
      destruct ((-2147483648 <=? -1 * (num y / den y)) &&
                (-1 * (num y / den y) <=? 2147483647)) eqn:R.
      * split; [intros _ | discriminate].
        apply andb_true_iff in R as [R1 R2]. apply Z.leb_le in R1.
        split; [reflexivity | apply A; lia].
      * split; [intros H; now elim H|]. intros [_ H]. apply A in H.
        apply andb_false_iff in R as [R|R]; apply Z.leb_gt in R; lia.
    + pose proof (div_below (num y) (den y) 2147483648 D) as A.
      destruct ((-2147483648 <=? 1 * (num y / den y)) &&
                (1 * (num y / den y) <=? 2147483647)) eqn:R.
      * split; [intros _ | discriminate].
        apply andb_true_iff in R as [R1 R2]. apply Z.leb_le in R2.
        split; [reflexivity | apply A; lia].
      * split; [intros H; now elim H|]. intros [_ H]. apply A in H.
        apply andb_false_iff in R as [R|R]; apply Z.leb_gt in R; lia.
Qed.

Lemma to_int_fits (x : double) :
  Observe.fits_int x <-> exists d, to_int x = Some d.
Proof.
  unfold Observe.fits_int. rewrite <- to_int_defined_iff.
  destruct (to_int x) as [d|]; split.
  - intros _. now exists d.
  - discriminate.
  - intros H. now elim H.
  - intros [d H]. discriminate H.
Qed.

Lemma to_int_nonneg (x : double) :
  sign x = false -> Observe.fits_int x -> to_int x = Some (num x / den x).
Proof.
  intros Hs F. apply to_int_fits in F as [d Hd]. rewrite Hd. f_equal.
  unfold to_int in Hd. destruct (truncate x) as [z|] eqn:T; [|discriminate].
  destruct (Int.in_range z); [|discriminate]. injection Hd as <-.
  apply truncate_value in T. rewrite Hs in T. lia.
Qed.




(** ** The report *)




(** ** Sizes *)

Lemma units_value :
  MediaFile.KB = S754_finite false 4503599627370496 (-42) /\
  MediaFile.MB = S754_finite false 4503599627370496 (-32) /\
  MediaFile.GB = S754_finite false 4503599627370496 (-22).
Proof. repeat split; vm_compute; reflexivity. Qed.

(** The thresholds are nested: a value that reaches one reaches the
    smaller ones. *)
Lemma ge_nested (x : double) (m : positive) (e e' : Z) :
  e' < e ->
  ge x (S754_finite false m e) = true ->
  ge x (S754_finite false m e') = true.
Proof.
  intros He. unfold ge, SFleb, SFcompare.
  destruct x as [s|s| |s mx ex]; try discriminate.
  - destruct s; [discriminate | reflexivity].
  - destruct s; [discriminate|].
    destruct (Z.compare_spec e ex) as [E|E|E];
      destruct (Z.compare_spec e' ex) as [E'|E'|E'];
      try lia; try discriminate; reflexivity.
Qed.

Lemma ge_GB_MB (x : double) :
  ge x MediaFile.GB = true -> ge x MediaFile.MB = true.
Proof.
  destruct units_value as (_ & -> & ->). apply ge_nested. lia.
Qed.

Lemma ge_MB_KB (x : double) :
  ge x MediaFile.MB = true -> ge x MediaFile.KB = true.
Proof.
  destruct units_value as (-> & -> & _). apply ge_nested. lia.
Qed.

(** C3, as the code has it: [formatSize] takes the largest of GB, MB and
    KB (powers of 1024) that the value reaches, [>=] deciding, divides by
    it and appends the unit, and below 1024 leaves the value as it is with
    " bytes"; the number is written by [std::to_string], that is with six
    decimals.  On the vectors: 500 gives "500.000000 bytes", 2048 gives
    "2.000000 KB", 1048576 gives "1.000000 MB", 1073741824 gives
    "1.000000 GB", and 1024 exactly gives "1.000000 KB". *)
Theorem formatSize_units :
  (MediaFile.KB = of_Z 1024 /\ MediaFile.MB = of_Z (1024 * 1024) /\
   MediaFile.GB = of_Z (1024 * 1024 * 1024)) /\
  (forall x : double,
      (ge x MediaFile.GB = true ->
         MediaFile.formatSize x = to_string (div x MediaFile.GB) ++ " GB") /\
      (ge x MediaFile.GB = false -> ge x MediaFile.MB = true ->
         MediaFile.formatSize x = to_string (div x MediaFile.MB) ++ " MB") /\
      (ge x MediaFile.GB = false -> ge x MediaFile.MB = false ->
       ge x MediaFile.KB = true ->
         MediaFile.formatSize x = to_string (div x MediaFile.KB) ++ " KB") /\
      (ge x MediaFile.GB = false -> ge x MediaFile.MB = false ->
       ge x MediaFile.KB = false ->
         MediaFile.formatSize x = to_string x ++ " bytes")) /\
  (forall x : double,
      (ge x MediaFile.GB = true -> ge x MediaFile.MB = true) /\
      (ge x MediaFile.MB = true -> ge x MediaFile.KB = true)) /\
  (forall x : double, to_string x = Double.fixed 6 x) /\
  (MediaFile.formatSize (of_Z 500) = "500.000000 bytes" /\
   MediaFile.formatSize (of_Z 2048) = "2.000000 KB" /\
   MediaFile.formatSize (of_Z 1048576) = "1.000000 MB" /\
   MediaFile.formatSize (of_Z 1073741824) = "1.000000 GB" /\
   MediaFile.formatSize (of_Z 1024) = "1.000000 KB" /\
   MediaFile.formatSize (of_Z 1023) = "1023.000000 bytes" /\
   MediaFile.formatSize (of_Z 100000000) = "95.367432 MB").
Proof.
  split; [|split; [|split; [|split]]].
  - repeat split; vm_compute; reflexivity.
  - intros x. unfold MediaFile.formatSize.
    repeat split; intros; rewrite ?H, ?H0, ?H1; reflexivity.
  - intros x. split; [apply ge_GB_MB | apply ge_MB_KB].
  - reflexivity.
  - repeat split; vm_compute; reflexivity.
Qed.

Lemma formatSize_units_witness :
  ge (of_Z 5368709120) MediaFile.GB = true /\
  MediaFile.formatSize (of_Z 5368709120) = "5.000000 GB".
Proof.
  assert (H : ge (of_Z 5368709120) MediaFile.GB = true)
    by (vm_compute; reflexivity).
  split; [exact H|].
  rewrite (proj1 (proj1 (proj2 formatSize_units) (of_Z 5368709120)) H).
  vm_compute. reflexivity.
Defined.

(** The vectors of C3 do not hold as written: 500 bytes is not rendered
    "500 bytes", nor 2048 bytes "2 KB". *)
Lemma formatSize_not_shortest :
  MediaFile.formatSize (of_Z 500) <> "500 bytes" /\
  MediaFile.formatSize (of_Z 2048) <> "2 KB" /\
  MediaFile.formatSize (of_Z 1048576) <> "1 MB" /\
  MediaFile.formatSize (of_Z 1073741824) <> "1 GB" /\
  MediaFile.formatSize (of_Z 1024) <> "1 KB".
Proof.
  repeat split; vm_compute; discriminate.
Qed.

(** ** Bitrate *)

Lemma round_half_even_nearest (n d : Z) :
  0 < d -> 2 * Z.abs (round_half_even n d * d - n) <= d.
Proof.
  intros Hd. unfold round_half_even.
  pose proof (Z.div_mod n d ltac:(lia)) as E.
  pose proof (Z.mod_pos_bound n d Hd) as B.
  set (q := n / d) in *. set (r := n mod d) in *.
  destruct (Z.compare_spec (2 * r) d) as [C|C|C];
    [destruct (Z.even q)| |]; nia.
Qed.

Lemma fixed_finite (p : nat) (x : double) :
  is_finite x = true ->
  Double.fixed p x =
  sign_text x ++ with_point (scaled round_half_even x (Z.of_nat p)) p.
Proof.
  destruct x; try discriminate; reflexivity.
Qed.

(** C2, as the code has it: [calculateBitrate] is the [double]
    expression (size * 8) / (duration * 1000000), a function of the size
    and the duration alone, with no decimal rounding of its own; the
    Bitrate line of the report shows it in fixed notation with two
    decimals, the hundredth shown being the one NEAREST to the value (at
    most half a hundredth away), not the value cut after two decimals. *)
Theorem calculateBitrate_shown_rounded :
  forall v : VideoFile.VideoFile,
    let b := VideoFile.calculateBitrate v in
    b = div (mul (VideoFile.size v) (of_Z 8))
            (mul (VideoFile.duration v) (of_Z 1000000)) /\
    (forall v' : VideoFile.VideoFile,
        VideoFile.size v' = VideoFile.size v ->
        VideoFile.duration v' = VideoFile.duration v ->
        VideoFile.calculateBitrate v' = b) /\
    (forall d : Z,
        to_int (VideoFile.duration v) = Some d ->
        exists os',
          VideoFile.displayInfo v fresh = Some os' /\
          written os' = Spec.report_with (Double.fixed 2 b) v d) /\
    (is_finite b = true ->
     let hundredths := scaled round_half_even b 2 in
     Double.fixed 2 b = sign_text b ++ with_point hundredths 2 /\
     2 * Z.abs (hundredths * den b - 100 * num b) <= den b) /\
    (VideoFile.size v = of_Z 1000000 -> VideoFile.duration v = of_Z 8 ->
     b = of_Z 1 /\ Double.fixed 2 b = "1.00") /\
    (VideoFile.size v = of_Z 104857600 -> VideoFile.duration v = of_Z 3661 ->
     b = S754_finite false 8255434441509350 (-55) /\
     Double.fixed 2 b = "0.23").
Proof.
  intros v b. split; [reflexivity|]. split; [|split; [|split; [|split]]].
  - intros v' Hs Hd. unfold b, VideoFile.calculateBitrate. now rewrite Hs, Hd.
  - intros d Hd.
    destruct (displayInfo_report v d fresh plain_fresh Hd) as (os' & E & W).
    exists os'. split; [exact E|]. rewrite W. reflexivity.
  - intros Hf hundredths. split; [now apply fixed_finite|].
    unfold hundredths, scaled. cbn [Z.leb Z.compare].
    pose proof (round_half_even_nearest (num b * 10 ^ 2) (den b) (den_pos b)).
    change (10 ^ 2) with 100 in *. lia.
  - intros Hs Hd. unfold b, VideoFile.calculateBitrate. rewrite Hs, Hd.
    split; vm_compute; reflexivity.
  - intros Hs Hd. unfold b, VideoFile.calculateBitrate. rewrite Hs, Hd.
    split; vm_compute; reflexivity.
Qed.

Lemma calculateBitrate_shown_rounded_witness :
  is_finite (VideoFile.calculateBitrate
               (Spec.sample (of_Z 3661) (of_Z 104857600) 1920 1080)) = true /\
  Double.fixed 2 (VideoFile.calculateBitrate
                    (Spec.sample (of_Z 3661) (of_Z 104857600) 1920 1080)) =
  "0.23".
Proof.
  assert (H : is_finite (VideoFile.calculateBitrate
               (Spec.sample (of_Z 3661) (of_Z 104857600) 1920 1080)) = true)
    by (vm_compute; reflexivity).
  split; [exact H|].
  rewrite (proj1 (proj1 (proj2 (proj2 (proj2 (calculateBitrate_shown_rounded
             (Spec.sample (of_Z 3661) (of_Z 104857600) 1920 1080))))) H)).
  vm_compute. reflexivity.
Defined.

(** The last part of C2 does not hold: on the scenario of section 8
    (104857600 bytes in 3661 seconds, 0.229... Mbps) the report is not
    the one with the bitrate cut after two decimals, "0.22"; it shows
    "0.23". *)
Lemma bitrate_shown_not_truncated :
  ~ (forall (v : VideoFile.VideoFile) (d : Z) (os' : ostream),
        to_int (VideoFile.duration v) = Some d ->
        VideoFile.displayInfo v fresh = Some os' ->
        written os' =
        Spec.report_with (Spec.truncated_2 (VideoFile.calculateBitrate v)) v d).
Proof.
  intros H.
  set (v := Spec.sample (of_Z 3661) (of_Z 104857600) 1920 1080).
  assert (Hd : to_int (VideoFile.duration v) = Some 3661)
    by (vm_compute; reflexivity).
  destruct (displayInfo_report v 3661 fresh plain_fresh Hd) as (os' & E & W).
  specialize (H v 3661 os' Hd E). rewrite W in H.
  vm_compute in H. discriminate H.
Qed.

(** ** Standard input *)

Lemma ignore_shrinks (n : Z) (delim : ascii) (s : istream) :
  (String.length (ignore n delim s) <= String.length s)%nat.
Proof.
  revert n. induction s as [|c s IH]; intros n; cbn [ignore]; [lia|].
  destruct (n <=? 0); [lia|].
  destruct (Ascii.eqb c delim); cbn [String.length]; [lia|].
  specialize (IH (n - 1)). lia.
Qed.

Lemma ignore_consumes (n : Z) (delim : ascii) (s : istream) :
  0 < n -> s <> "" ->
  (String.length (ignore n delim s) < String.length s)%nat.
Proof.
  intros Hn Hs. destruct s as [|c s]; [now elim Hs|]. cbn [ignore].
  destruct (Z.leb_spec n 0); [lia|].
  destruct (Ascii.eqb c delim); cbn [String.length]; [lia|].
  pose proof (ignore_shrinks (n - 1) delim s). lia.
Qed.

Lemma ignore_empty (n : Z) (delim : ascii) : ignore n delim "" = "".
Proof. reflexivity. Qed.

(** Within the limit, [ignore] discards the rest of the line, line feed
    included. *)
Lemma ignore_whole_line (n : Z) (s : istream) :
  Z.of_nat (String.length (fst (getline s))) < n ->
  ignore n LF s = snd (getline s).
Proof.
  revert n. induction s as [|c s IH]; intros n H; [reflexivity|].
  cbn [ignore getline] in *.
  destruct (Ascii.eqb c LF).
  - cbn [fst snd String.length] in *. destruct (Z.leb_spec n 0); [lia|].
    reflexivity.
  - destruct (getline s) as [line rest] eqn:G.
    cbn [fst snd String.length] in *.
    destruct (Z.leb_spec n 0); [lia|].
    apply IH. lia.
Qed.

Lemma skipws_shrinks (s : istream) :
  (String.length (skipws s) <= String.length s)%nat.
Proof.
  induction s as [|c s IH]; cbn [skipws]; [lia|].
  destruct (is_space c); cbn [String.length]; lia.
Qed.

Lemma take_sign_shrinks (s : string) :
  (String.length (snd (take_sign s)) <= String.length s)%nat.
Proof.
  destruct s as [|c s]; [cbn; lia|].
  unfold take_sign.
  destruct c as [[] [] [] [] [] [] [] []]; cbn [snd String.length]; lia.
Qed.

Lemma span_digits_shrinks (s : string) :
  (String.length (snd (span_digits s)) <= String.length s)%nat.
Proof.
  induction s as [|c s IH]; cbn [span_digits]; [cbn; lia|].
  destruct (is_digit c); [|cbn; lia].
  destruct (span_digits s) as [ds rest]. cbn [snd String.length] in *. lia.
Qed.

Lemma skip_zeros_shrinks (s : string) :
  (String.length (skip_zeros s) <= String.length s)%nat.
Proof.
  induction s as [|c s IH]; [cbn; lia|].
  cbn [skip_zeros].
  destruct c as [[] [] [] [] [] [] [] []]; cbn [String.length]; lia.
Qed.

Lemma gather_shrinks (s : string) (st : scan) (after_mark : bool) :
  (String.length (snd (gather st after_mark s)) <= String.length s)%nat.
Proof.
  revert st after_mark. induction s as [|c s IH]; intros st after_mark;
    cbn [gather]; [cbn; lia|].
  repeat match goal with
         | |- context [if ?b then _ else _] => destruct b
         end;
    cbn [snd String.length];
    try (match goal with
         | |- context [gather ?st' ?a s] => specialize (IH st' a)
         end); lia.
Qed.

Lemma extract_int_shrinks (s : istream) :
  (String.length (snd (extract_int s)) <= String.length s)%nat.
Proof.
  unfold extract_int.
  pose proof (skipws_shrinks s) as H1.
  pose proof (take_sign_shrinks (skipws s)) as H2.
  destruct (take_sign (skipws s)) as [neg s1]. cbn [snd] in H2.
  pose proof (span_digits_shrinks s1) as H3.
  destruct (span_digits s1) as [ds rest]. cbn [snd] in H3.
  destruct ds; [cbn [snd]; lia|].
  destruct (Int.in_range _); cbn [snd]; lia.
Qed.

Lemma gather_float_shrinks (s : istream) :
  (String.length (snd (gather_float s)) <= String.length s)%nat.
Proof.
  unfold gather_float.
  pose proof (take_sign_shrinks s) as H1.
  destruct (take_sign s) as [neg s1]. cbn [snd] in H1.
  pose proof (skip_zeros_shrinks s1) as H2.
  match goal with
  | |- context [gather ?st false (skip_zeros s1)] =>
      pose proof (gather_shrinks (skip_zeros s1) st false) as H3;
      destruct (gather st false (skip_zeros s1)) as [st' rest]
  end.
  cbn [snd] in *. lia.
Qed.

Lemma extract_double_shrinks (s : istream) :
  (String.length (snd (extract_double s)) <= String.length s)%nat.
Proof.
  unfold extract_double.
  pose proof (skipws_shrinks s) as H1.
  pose proof (gather_float_shrinks (skipws s)) as H2.
  destruct (gather_float (skipws s)) as [text rest]. cbn [snd] in H2.
  destruct (strtod_all text) as [[ | | | ]|]; cbn [snd]; lia.
Qed.

(** ** The validation loop *)

Section ValidationLoopFacts.

Context {T : Type}.
Variable extract : istream -> option T * istream.
Variable nonpositive : T -> bool.
Variable message : string.

Hypothesis extract_shrinks :
  forall s, (String.length (snd (extract s)) <= String.length s)%nat.
Hypothesis extract_eof : fst (extract "") = None.

Let attempt := Program.attempt extract nonpositive.
Let read_loop := Program.read_loop extract nonpositive message.
Let read_positive := Program.read_positive extract nonpositive message.

Lemma attempt_rest (cin : istream) : snd (attempt cin) = snd (extract cin).
Proof.
  unfold attempt, Program.attempt.
  destruct (extract cin) as [[x|] rest]; [|reflexivity].
  now destruct (nonpositive x).
Qed.

Lemma attempt_eof : attempt "" = (None, "").
Proof.
  pose proof (attempt_rest "") as R. pose proof (extract_shrinks "") as L.
  unfold attempt, Program.attempt in *.
  destruct (extract "") as [[x|] rest]; cbn [fst snd] in *;
    [discriminate extract_eof|].
  destruct rest; [reflexivity | cbn in L; lia].
Qed.

Lemma attempt_accepts (cin rest : istream) (x : T) :
  attempt cin = (Some x, rest) <->
  extract cin = (Some x, rest) /\ nonpositive x = false.
Proof.
  unfold attempt, Program.attempt.
  destruct (extract cin) as [[y|] r]; [|split; [discriminate|now intros [? _]]].
  destruct (nonpositive y) eqn:N; split.
  - discriminate.
  - intros [[= -> ->] N']. congruence.
  - intros [= -> ->]. now split.
  - intros [[= -> ->] _]. reflexivity.
Qed.

Lemma attempt_rejects (cin rest : istream) :
  attempt cin = (None, rest) <->
  extract cin = (None, rest) \/
  exists x, extract cin = (Some x, rest) /\ nonpositive x = true.
Proof.
  unfold attempt, Program.attempt.
  destruct (extract cin) as [[y|] r].
  - destruct (nonpositive y) eqn:N; split.
    + intros [= ->]. right. now exists y.
    + intros [[= ->]|(x & [= -> ->] & _)]; reflexivity.
    + discriminate.
    + intros [[=]|(x & [= -> ->] & N')]. congruence.
  - split; [intros [= ->]; now left|].
    intros [[= ->]|(x & [=] & _)]. reflexivity.
Qed.

(** At the end of the input the loop never ends. *)
Lemma read_loop_eof (fuel : nat) (cout : ostream) :
  read_loop fuel "" cout = None.
Proof.
  revert cout. induction fuel as [|fuel IH]; intros cout; [reflexivity|].
  unfold read_loop in *. cbn [Program.read_loop].
  fold attempt. rewrite attempt_eof. cbn [ignore]. apply IH.
Qed.

(** Fuel beyond the length of the input changes nothing. *)
Lemma read_loop_fuel (fuel1 fuel2 : nat) (cin : istream) (cout : ostream) :
  (String.length cin < fuel1)%nat -> (String.length cin < fuel2)%nat ->
  read_loop fuel1 cin cout = read_loop fuel2 cin cout.
Proof.
  revert fuel2 cin cout.
  induction fuel1 as [|fuel1 IH]; intros fuel2 cin cout H1 H2; [lia|].
  destruct fuel2 as [|fuel2]; [lia|].
  unfold read_loop in *. cbn [Program.read_loop]. fold attempt.
  pose proof (attempt_rest cin) as R. pose proof (extract_shrinks cin) as L.
  destruct (attempt cin) as [[x|] rest]; [reflexivity|].
  cbn [snd] in R. rewrite <- R in L.
  destruct rest as [|c rest].
  - cbn [ignore]. now rewrite !read_loop_eof.
  - assert (String.length (ignore 10000 LF (String c rest))
            < String.length (String c rest))%nat
      by (apply ignore_consumes; [lia | discriminate]).
    apply IH; lia.
Qed.

(** Fuel that was enough stays enough. *)
Lemma read_loop_more_fuel (fuel extra : nat) (cin : istream) (cout : ostream)
    (r : T * istream * ostream) :
  read_loop fuel cin cout = Some r ->
  read_loop (fuel + extra) cin cout = Some r.
Proof.
  revert cin cout. induction fuel as [|fuel IH]; intros cin cout H;
    [discriminate H|].
  unfold read_loop in *. cbn [Program.read_loop Nat.add] in *.
  destruct (Program.attempt extract nonpositive cin) as [[x|] rest];
    [exact H|]. now apply IH.
Qed.

(** [read_positive] answers [None] only for a loop that no number of
    turns ends. *)
Lemma read_positive_hangs (cin : istream) (cout : ostream) :
  read_positive cin cout = None <->
  forall fuel, read_loop fuel cin cout = None.
Proof.
  split; [|intros H; apply H].
  intros H fuel.
  destruct (read_loop fuel cin cout) as [r|] eqn:E; [|reflexivity].
  apply (read_loop_more_fuel fuel (S (String.length cin))) in E.
  rewrite (read_loop_fuel _ (S (String.length cin))) in E by lia.
  unfold read_positive, Program.read_positive in H. fold read_loop in H.
  congruence.
Qed.

(** The loop, one turn at a time: an attempt that succeeds ends it, an
    attempt that fails writes the message, discards input with
    [ignore] and starts the loop again. *)
Lemma read_positive_accept (cin rest : istream) (cout : ostream) (x : T) :
  attempt cin = (Some x, rest) ->
  read_positive cin cout = Some (x, rest, cout).
Proof.
  intros H. unfold read_positive, Program.read_positive.
  cbn [Program.read_loop]. fold attempt. now rewrite H.
Qed.

Lemma read_positive_retry (cin rest : istream) (cout : ostream) :
  attempt cin = (None, rest) ->
  read_positive cin cout =
  read_positive (ignore 10000 LF rest) (put_string message cout).
Proof.
  intros H.
  transitivity (read_loop (String.length cin) (ignore 10000 LF rest)
                          (put_string message cout)).
  { unfold read_positive, Program.read_positive.
    cbn [Program.read_loop]. fold attempt. now rewrite H. }
  unfold read_positive, Program.read_positive. fold read_loop.
  pose proof (attempt_rest cin) as R. pose proof (extract_shrinks cin) as L.
  rewrite H in R. cbn [snd] in R. rewrite <- R in L.
  destruct rest as [|c rest].
  - rewrite ignore_empty. now rewrite !read_loop_eof.
  - assert (String.length (ignore 10000 LF (String c rest))
            < String.length (String c rest))%nat
      by (apply ignore_consumes; [lia | discriminate]).
    apply read_loop_fuel; lia.
Qed.

(** What the loop hands over passed the test, and the stream has
    received the message a number of times and nothing else. *)
Lemma read_loop_result (fuel : nat) (cin rest : istream)
    (cout cout' : ostream) (x : T) :
  read_loop fuel cin cout = Some (x, rest, cout') ->
  nonpositive x = false /\
  (exists cin', extract cin' = (Some x, rest)) /\
  (plain cout -> plain cout') /\
  (forall c, width cout = 0%nat -> occurs c message = false ->
             occurs c (written cout') = occurs c (written cout)).
Proof.
  revert cin cout. induction fuel as [|fuel IH]; intros cin cout H;
    [discriminate H|].
  unfold read_loop in *. cbn [Program.read_loop] in H. fold attempt in H.
  destruct (attempt cin) as [[y|] r] eqn:A.
  - injection H as -> -> ->. apply attempt_accepts in A as [E N].
    split; [exact N|]. split; [now exists cin|]. split; auto.
  - apply IH in H as (N & E & P & O).
    split; [exact N|]. split; [exact E|]. split.
    + intros Hp. apply P. now apply plain_put_string.
    + intros c Hw Hm. rewrite O by (reflexivity || assumption).
      rewrite written_put_string by assumption.
      now rewrite occurs_append, Hm, orb_false_r.
Qed.

End ValidationLoopFacts.

(** ** What [in >> double] can yield *)

Lemma iter_pos_invariant {A : Type} (P : A -> Prop) (f : A -> A) :
  (forall a, P a -> P (f a)) ->
  forall (n : positive) (a : A), P a -> P (iter_pos f n a).
Proof.
  intros Hf. induction n as [n IH|n IH|]; intros a Ha; cbn [iter_pos]; auto.
Qed.

Lemma shr_1_nonneg (mrs : shr_record) :
  0 <= shr_m mrs -> 0 <= shr_m (shr_1 mrs).
Proof.
  destruct mrs as [m r s]. destruct m as [|[p|p|]|[p|p|]]; cbn; lia.
Qed.

Lemma shr_fexp_nonneg (m e : Z) (l : location) :
  0 <= m -> 0 <= shr_m (fst (shr_fexp prec emax m e l)).
Proof.
  intros Hm. unfold shr_fexp, shr.
  assert (H0 : 0 <= shr_m (shr_record_of_loc m l))
    by (destruct l as [|[]]; exact Hm).
  destruct (fexp prec emax (Zdigits2 m + e) - e) as [|p|p]; cbn [fst];
    try exact H0.
  now apply iter_pos_invariant; [apply shr_1_nonneg|].
Qed.

Lemma round_nearest_even_nonneg (m : Z) (l : location) :
  0 <= m -> 0 <= round_nearest_even m l.
Proof.
  intros Hm. destruct l as [|[]]; cbn; try lia. destruct (Z.even m); lia.
Qed.

Lemma binary_round_aux_not_nan (s : bool) (m e : Z) (l : location) :
  0 <= m -> binary_round_aux prec emax s m e l <> S754_nan.
Proof.
  intros Hm. unfold binary_round_aux.
  pose proof (shr_fexp_nonneg m e l Hm) as H1.
  destruct (shr_fexp prec emax m e l) as [mrs' e']. cbn [fst] in H1.
  pose proof (shr_fexp_nonneg
                (round_nearest_even (shr_m mrs') (loc_of_shr_record mrs'))
                e' loc_Exact
                (round_nearest_even_nonneg _ _ H1)) as H2.
  destruct (shr_fexp prec emax _ e' loc_Exact) as [mrs'' e'']. cbn [fst] in H2.
  destruct (shr_m mrs'') as [|p|p]; [discriminate| |lia].
  destruct (e'' <=? emax - prec); discriminate.
Qed.

Lemma binary_normalize_not_nan (m e : Z) (s : bool) :
  binary_normalize prec emax m e s <> S754_nan.
Proof.
  unfold binary_normalize, binary_round.
  destruct m as [|p|p]; [discriminate| |];
    destruct (shl_align p e _) as [mz ez];
    apply binary_round_aux_not_nan; lia.
Qed.

Lemma of_decimal_not_nan (neg : bool) (m k : Z) :
  0 <= m -> of_decimal neg m k <> S754_nan.
Proof.
  intros Hm. unfold of_decimal.
  destruct (m =? 0); [discriminate|].
  destruct (Z.leb_spec 0 k) as [Hk|Hk]; [apply binary_normalize_not_nan|].
  unfold SFdiv_core_binary.
  set (d := 10 ^ (- k)).
  set (sh := 0 - 0 - Z.min (fexp prec emax (Zdigits2 m + 0 - (Zdigits2 d + 0)))
                           (0 - 0)).
  set (m' := match sh with
             | 0 => m
             | Z.pos _ => Z.shiftl m sh
             | Z.neg _ => 0
             end).
  assert (Hm' : 0 <= m').
  { unfold m'. destruct sh; try lia. now apply Z.shiftl_nonneg. }
  assert (Hd : 0 < d) by (apply Z.pow_pos_nonneg; lia).
  pose proof (Z.div_pos m' d Hm' Hd) as Hq. unfold Z.div in Hq.
  destruct (Z.div_eucl m' d) as [q r].
  now apply binary_round_aux_not_nan.
Qed.

Lemma is_digit_value (c : ascii) :
  is_digit c = true -> 0 <= digit_value c <= 9.
Proof.
  unfold is_digit, digit_value. rewrite andb_true_iff.
  intros [L U]. apply Nat.leb_le in L, U. lia.
Qed.

Lemma span_digits_digits (s : string) :
  all_chars is_digit (fst (span_digits s)) = true.
Proof.
  induction s as [|c s IH]; [reflexivity|]. cbn [span_digits].
  destruct (is_digit c) eqn:D; [|reflexivity].
  destruct (span_digits s) as [ds rest]. cbn [fst all_chars] in *.
  now rewrite D, IH.
Qed.

Lemma all_chars_append (p : ascii -> bool) (a b : string) :
  all_chars p (a ++ b) = all_chars p a && all_chars p b.
Proof.
  induction a as [|x a IH]; cbn [append all_chars]; [reflexivity|].
  now rewrite IH, andb_assoc.
Qed.

Lemma digits_value_nonneg (ds : string) (acc : Z) :
  all_chars is_digit ds = true -> 0 <= acc -> 0 <= digits_value acc ds.
Proof.
  revert acc. induction ds as [|c ds IH]; intros acc H Hacc; [exact Hacc|].
  cbn [all_chars digits_value] in *. apply andb_true_iff in H as [Hc Hds].
  apply IH; [exact Hds|]. pose proof (is_digit_value c Hc). lia.
Qed.

Lemma strtod_all_not_nan (s : string) (x : double) :
  strtod_all s = Some x -> x <> S754_nan.
Proof.
  unfold strtod_all.
  destruct (take_sign s) as [neg s1].
  pose proof (span_digits_digits s1) as Hip.
  destruct (span_digits s1) as [ip s2]. cbn [fst] in Hip.
  assert (Hfp : all_chars is_digit
                  (fst match s2 with
                       | String "." r => span_digits r
                       | _ => ("", s2)
                       end) = true).
  { destruct s2 as [|c r]; [reflexivity|].
    destruct c as [[] [] [] [] [] [] [] []]; try reflexivity.
    apply span_digits_digits. }
  destruct (match s2 with
            | String "." r => span_digits r
            | _ => ("", s2)
            end) as [fp s3]. cbn [fst] in Hfp.
  assert (Hm : 0 <= digits_value 0 (ip ++ fp)).
  { apply digits_value_nonneg; [|lia]. now rewrite all_chars_append, Hip, Hfp. }
  destruct (ip ++ fp) as [|c mant] eqn:M; [discriminate|].
  destruct s3 as [|c3 r3].
  - intros [= <-]. now apply of_decimal_not_nan.
  - destruct c3 as [[] [] [] [] [] [] [] []]; try discriminate.
    destruct (take_sign r3) as [eneg s4].
    destruct (span_digits s4) as [[|d ds] [|c5 r5]]; try discriminate.
    intros [= <-]. now apply of_decimal_not_nan.
Qed.

(** A value that [in >> double] stores without setting [failbit] is
    finite. *)
Lemma extract_double_finite (s rest : istream) (x : double) :
  extract_double s = (Some x, rest) -> is_finite x = true.
Proof.
  unfold extract_double.
  destruct (gather_float (skipws s)) as [text r].
  destruct (strtod_all text) as [y|] eqn:E; [|discriminate].
  apply strtod_all_not_nan in E.
  destruct y; try discriminate; intros [= <- _]; try reflexivity.
  now elim E.
Qed.

Lemma positive_finite (x : double) :
  is_finite x = true -> Program.double_nonpositive x = false ->
  exists m e, x = S754_finite false m e.
Proof.
  destruct x as [[]|s| |s m e]; try discriminate.
  intros _ H. destruct s; [discriminate H|]. now exists m, e.
Qed.

(** ** The five loops of [main] *)

Lemma extract_double_eof : fst (extract_double "") = None.
Proof. reflexivity. Qed.

Lemma extract_int_eof : fst (extract_int "") = None.
Proof. reflexivity. Qed.

Lemma read_double_result (message : string) (cin rest : istream)
    (cout cout' : ostream) (x : double) :
  Program.read_positive extract_double Program.double_nonpositive message
    cin cout = Some (x, rest, cout') ->
  (exists m e, x = S754_finite false m e) /\
  (plain cout -> plain cout') /\
  (forall c, width cout = 0%nat -> occurs c message = false ->
             occurs c (written cout') = occurs c (written cout)).
Proof.
  intros H. apply read_loop_result in H as (N & (cin' & E) & P & O).
  split; [|split; assumption].
  apply positive_finite; [|exact N]. exact (extract_double_finite _ _ _ E).
Qed.

Lemma read_int_result (message : string) (cin rest : istream)
    (cout cout' : ostream) (z : Z) :
  Program.read_positive extract_int Program.int_nonpositive message
    cin cout = Some (z, rest, cout') ->
  0 < z /\
  (plain cout -> plain cout') /\
  (forall c, width cout = 0%nat -> occurs c message = false ->
             occurs c (written cout') = occurs c (written cout)).
Proof.
  intros H. apply read_loop_result in H as (N & _ & P & O).
  split; [|split; assumption].
  unfold Program.int_nonpositive in N. apply Z.leb_gt in N. exact N.
Qed.

Lemma extends_refl (c : ascii) (os : ostream) : extends_without c os os.
Proof. intros H. now split. Qed.

Lemma extends_put_string (c : ascii) (s : string) (os os' : ostream) :
  occurs c s = false ->
  extends_without c os os' -> extends_without c os (put_string s os').
Proof.
  intros Hs H Hp. destruct (H Hp) as [P O]. split.
  - now apply plain_put_string.
  - rewrite written_put_string by apply P.
    now rewrite occurs_append, Hs, orb_false_r.
Qed.

Lemma extends_read {T : Type} (extract : istream -> option T * istream)
    (nonpositive : T -> bool) (message : string) (c : ascii)
    (cin rest : istream) (os cout cout' : ostream) (x : T) :
  occurs c message = false ->
  Program.read_positive extract nonpositive message cin cout =
    Some (x, rest, cout') ->
  extends_without c os cout -> extends_without c os cout'.
Proof.
  intros Hm R H Hp. destruct (H Hp) as [P O].
  apply read_loop_result in R as (_ & _ & P' & O'). split.
  - now apply P'.
  - rewrite O' by (apply P || exact Hm). exact O.
Qed.

(** What [collect] hands over: the numeric fields are positive, the
    stream is as it was but for the prompts, and no prompt holds the
    character [=]. *)
Lemma collect_result (cin : istream) (cout cout' : ostream)
    (i : Program.inputs) :
  Program.collect cin cout = Some (i, cout') ->
  ((exists m e, Program.in_duration i = S754_finite false m e) /\
   (exists m e, Program.in_size i = S754_finite false m e) /\
   0 < Program.in_width i /\ 0 < Program.in_height i /\
   (exists m e, Program.in_frameRate i = S754_finite false m e)) /\
  extends_without "=" cout cout'.
Proof.
  unfold Program.collect.
  destruct (getline cin) as [filename cin1].
  destruct (getline cin1) as [format cin2].
  match goal with
  | |- Program.bind (Program.read_positive ?e ?n ?m ?i ?o) _ = _ -> _ =>
      destruct (Program.read_positive e n m i o) as [[[duration cin3] cout3]|]
        eqn:R1; [|discriminate]
  end.
  cbn [Program.bind].
  match goal with
  | |- Program.bind (Program.read_positive ?e ?n ?m ?i ?o) _ = _ -> _ =>
      destruct (Program.read_positive e n m i o) as [[[size cin4] cout4]|]
        eqn:R2; [|discriminate]
  end.
  cbn [Program.bind].
  match goal with
  | |- Program.bind (Program.read_positive ?e ?n ?m ?i ?o) _ = _ -> _ =>
      destruct (Program.read_positive e n m i o) as [[[width cin5] cout5]|]
        eqn:R3; [|discriminate]
  end.
  cbn [Program.bind].
  match goal with
  | |- Program.bind (Program.read_positive ?e ?n ?m ?i ?o) _ = _ -> _ =>
      destruct (Program.read_positive e n m i o) as [[[height cin6] cout6]|]
        eqn:R4; [|discriminate]
  end.
  cbn [Program.bind].
  match goal with
  | |- Program.bind (Program.read_positive ?e ?n ?m ?i ?o) _ = _ -> _ =>
      destruct (Program.read_positive e n m i o) as [[[frameRate cin7] cout7]|]
        eqn:R5; [|discriminate]
  end.
  cbn [Program.bind].
  destruct (getline (ignore_one cin7)) as [codec cin8].
  intros [= <- <-].
  cbn [Program.in_duration Program.in_size Program.in_width
       Program.in_height Program.in_frameRate].
  split.
  - apply read_double_result in R1 as (V1 & _).
    apply read_double_result in R2 as (V2 & _).
    apply read_int_result in R3 as (V3 & _).
    apply read_int_result in R4 as (V4 & _).
    apply read_double_result in R5 as (V5 & _).
    repeat split; assumption.
  - apply extends_put_string; [reflexivity|].
    eapply extends_read; [|exact R5|]; [reflexivity|].
    apply extends_put_string; [reflexivity|].
    eapply extends_read; [|exact R4|]; [reflexivity|].
    apply extends_put_string; [reflexivity|].
    eapply extends_read; [|exact R3|]; [reflexivity|].
    apply extends_put_string; [reflexivity|].
    eapply extends_read; [|exact R2|]; [reflexivity|].
    apply extends_put_string; [reflexivity|].
    eapply extends_read; [|exact R1|]; [reflexivity|].
    repeat (apply extends_put_string; [reflexivity|]).
    apply extends_refl.
Qed.

Lemma extract_double_rejects (c : ascii) (s : string) :
  Spec.starts_no_number c = true ->
  extract_double (String c s) = (None, String c s).
Proof.
  destruct c as [[] [] [] [] [] [] [] []]; intros H;
    try discriminate H; reflexivity.
Qed.

Lemma extract_int_rejects (c : ascii) (s : string) :
  Spec.starts_no_number c = true ->
  extract_int (String c s) = (None, String c s).
Proof.
  destruct c as [[] [] [] [] [] [] [] []]; intros H;
    try discriminate H; reflexivity.
Qed.

(** A line shorter than the limit is discarded whole. *)
Lemma ignore_line (n : Z) (line tail : string) :
  occurs LF line = false ->
  Z.of_nat (String.length line) < n ->
  ignore n LF (line ++ nl ++ tail) = tail.
Proof.
  revert n. induction line as [|c line IH]; intros n Hlf Hn.
  - cbn in *. destruct (Z.leb_spec n 0); [lia | reflexivity].
  - cbn [occurs] in Hlf. apply orb_false_iff in Hlf as [Hc Hline].
    cbn [append ignore String.length] in *.
    destruct (Z.leb_spec n 0); [lia|]. rewrite Hc.
    apply IH; [exact Hline | lia].
Qed.

(** C7, as the code has it.  Each numeric field is read by a loop that
    ends on the first value that parses and is strictly positive, handing
    that value over; on a parse failure or a value that is not positive
    it writes the message of the field, discards input with
    [ignore(10000, '\n')] and tries again.  What is discarded is the rest
    of the line, line feed included, when fewer than 10000 characters
    remain on the line (10000 characters otherwise).  So a line shorter
    than that whose first character can start no number, "abc" for one,
    does not get past the field: the loop goes on with the next line.  A
    value handed over is finite and strictly positive, and so are the
    five numeric inputs that [main] collects; the messages are the
    field's own. *)
Theorem numeric_fields_validated :
  (forall (message : string) (cin : istream) (cout : ostream),
    let read_double :=
      Program.read_positive extract_double Program.double_nonpositive message in
    let read_int :=
      Program.read_positive extract_int Program.int_nonpositive message in
    (forall x rest,
        extract_double cin = (Some x, rest) -> le x zero = false ->
        read_double cin cout = Some (x, rest, cout)) /\
    (forall z rest,
        extract_int cin = (Some z, rest) -> 0 < z ->
        read_int cin cout = Some (z, rest, cout)) /\
    (forall rest,
        extract_double cin = (None, rest) \/
        (exists x, extract_double cin = (Some x, rest) /\ le x zero = true) ->
        read_double cin cout =
        read_double (ignore 10000 LF rest) (put_string message cout)) /\
    (forall rest,
        extract_int cin = (None, rest) \/
        (exists z, extract_int cin = (Some z, rest) /\ z <= 0) ->
        read_int cin cout =
        read_int (ignore 10000 LF rest) (put_string message cout)) /\
    (forall c line tail,
        Spec.starts_no_number c = true ->
        occurs LF (String c line) = false ->
        Z.of_nat (String.length (String c line)) < 10000 ->
        read_double (String c line ++ nl ++ tail) cout =
          read_double tail (put_string message cout) /\
        read_int (String c line ++ nl ++ tail) cout =
          read_int tail (put_string message cout)) /\
    (forall tail,
        read_double ("abc" ++ nl ++ tail) cout =
        read_double tail (put_string message cout)) /\
    (forall tail,
        read_int ("abc" ++ nl ++ tail) cout =
        read_int tail (put_string message cout)) /\
    (forall x rest cout',
        read_double cin cout = Some (x, rest, cout') ->
        exists m e, x = S754_finite false m e) /\
    (forall z rest cout',
        read_int cin cout = Some (z, rest, cout') -> 0 < z)) /\
  (forall rest : istream,
      Z.of_nat (String.length (fst (getline rest))) < 10000 ->
      ignore 10000 LF rest = Spec.discard_line rest) /\
  (forall (cin : istream) (cout cout' : ostream) (i : Program.inputs),
      Program.collect cin cout = Some (i, cout') ->
      (exists m e, Program.in_duration i = S754_finite false m e) /\
      (exists m e, Program.in_size i = S754_finite false m e) /\
      0 < Program.in_width i /\ 0 < Program.in_height i /\
      (exists m e, Program.in_frameRate i = S754_finite false m e)) /\
  option_map (fun r => written (snd r))
    (Program.collect
       ("movie" ++ nl ++ ".mp4" ++ nl ++ "abc" ++ nl ++ "3661" ++ nl ++
        "-1" ++ nl ++ "2048" ++ nl ++ "0" ++ nl ++ "640" ++ nl ++
        "x" ++ nl ++ "480" ++ nl ++ "1e999" ++ nl ++ "25" ++ nl ++
        "H.264" ++ nl) fresh) =
  Some ("Enter video information:" ++ nl ++
        "Filename (without extension): " ++
        "Format (e.g., .mp4, .mkv): " ++
        "Duration (in seconds): " ++ "Please enter a valid duration: " ++
        "Size (in bytes): " ++ "Please enter a valid size: " ++
        "Width (pixels): " ++ "Please enter a valid width: " ++
        "Height (pixels): " ++ "Please enter a valid height: " ++
        "Frame Rate (fps): " ++ "Please enter a valid frame rate: " ++
        "Video Codec (e.g., H.264, H.265): ").
Proof.
  split; [|split; [|split]].
  - intros message cin cout read_double read_int.
    repeat match goal with |- _ /\ _ => split end.
    + intros x rest E N.
      apply (read_positive_accept _ _ _ cin rest cout x).
      apply attempt_accepts. now split.
    + intros z rest E N.
      apply (read_positive_accept _ _ _ cin rest cout z).
      apply attempt_accepts. split; [exact E|].
      unfold Program.int_nonpositive. now apply Z.leb_gt.
    + intros rest H.
      apply (read_positive_retry _ _ _ extract_double_shrinks
               extract_double_eof cin rest cout).
      apply attempt_rejects. exact H.
    + intros rest H.
      apply (read_positive_retry _ _ _ extract_int_shrinks
               extract_int_eof cin rest cout).
      apply attempt_rejects. destruct H as [H|(z & E & N)]; [now left|].
      right. exists z. split; [exact E|].
      unfold Program.int_nonpositive. now apply Z.leb_le.
    + intros c line tail Hc Hlf Hlen.
      rewrite <- (ignore_line 10000 (String c line) tail Hlf Hlen) at 2 4.
      split.
      * apply (read_positive_retry _ _ _ extract_double_shrinks
                 extract_double_eof).
        apply attempt_rejects. left. cbn [append].
        now apply extract_double_rejects.
      * apply (read_positive_retry _ _ _ extract_int_shrinks
                 extract_int_eof).
        apply attempt_rejects. left. cbn [append].
        now apply extract_int_rejects.
    + intros tail.
      apply (read_positive_retry _ _ _ extract_double_shrinks
               extract_double_eof ("abc" ++ nl ++ tail)
               ("abc" ++ nl ++ tail) cout).
      reflexivity.
    + intros tail.
      apply (read_positive_retry _ _ _ extract_int_shrinks
               extract_int_eof ("abc" ++ nl ++ tail)
               ("abc" ++ nl ++ tail) cout).
      reflexivity.
    + intros x rest cout' H. now apply read_double_result in H.
    + intros z rest cout' H. now apply read_int_result in H.
  - intros rest H. now apply ignore_whole_line.
  - intros cin cout cout' i H. now apply collect_result in H.
  - vm_compute. reflexivity.
Qed.

Lemma numeric_fields_validated_witness :
  (extract_double ("5" ++ nl) = (Some (of_Z 5), nl) /\
   le (of_Z 5) zero = false) /\
  Program.read_positive extract_double Program.double_nonpositive
    "Please enter a valid duration: " ("abc" ++ nl ++ "5" ++ nl) fresh =
  Some (of_Z 5, nl, put_string "Please enter a valid duration: " fresh).
Proof.
  assert (H : extract_double ("5" ++ nl) = (Some (of_Z 5), nl) /\
              le (of_Z 5) zero = false)
    by (split; vm_compute; reflexivity).
  split; [exact H|].
  destruct (proj1 numeric_fields_validated "Please enter a valid duration: "
              ("5" ++ nl) (put_string "Please enter a valid duration: " fresh))
    as (Accept & _).
  destruct (proj1 numeric_fields_validated "Please enter a valid duration: "
              ("5" ++ nl) fresh)
    as (_ & _ & _ & _ & _ & Abc & _).
  rewrite (Abc ("5" ++ nl)).
  exact (Accept (of_Z 5) nl (proj1 H) (proj2 H)).
Defined.

(** C7 does not hold as written: what a failed attempt discards is not
    always "up to the next line boundary".  After a line made of "!" and
    9999 blanks, anything further on the same line is read as the next
    attempt: here the 5 is taken, where discarding the line would take
    the 7 of the next one. *)
Lemma ignore_stops_short_of_line_end :
  ~ (forall (cin rest : istream) (cout : ostream),
        extract_double cin = (None, rest) ->
        Program.read_positive extract_double Program.double_nonpositive
          "Please enter a valid duration: " cin cout =
        Program.read_positive extract_double Program.double_nonpositive
          "Please enter a valid duration: " (Spec.discard_line rest)
          (put_string "Please enter a valid duration: " cout)).
Proof.
  intros H.
  set (cin := "!" ++ replicate (Z.to_nat 9999) " " ++ "5" ++ nl ++ "7" ++ nl).
  specialize (H cin cin fresh).
  assert (E : extract_double cin = (None, cin)) by (vm_compute; reflexivity).
  specialize (H E). vm_compute in H. discriminate H.
Qed.

(** ** The process *)




(* ================================================================= *)
(** * Further properties of the code *)

(** ** Resolution classes *)

Lemma class_rank_thresholds (v : VideoFile.VideoFile) :
  let r := Observe.class_rank (VideoFile.getResolutionName v) in
  0 <= r <= 3 /\
  (3 <= r <-> 3840 <= VideoFile.width v /\ 2160 <= VideoFile.height v) /\
  (2 <= r <-> 1920 <= VideoFile.width v /\ 1080 <= VideoFile.height v) /\
  (1 <= r <-> 1280 <= VideoFile.width v /\ 720 <= VideoFile.height v).
Proof.
  unfold VideoFile.getResolutionName.
  repeat match goal with
         | |- context [?a <=? ?b] => destruct (Z.leb_spec a b)
         end; cbn; lia.
Qed.

(** X1: [getResolutionName] is monotone: a frame at least as wide and at
    least as high never gets a lower class. *)
Theorem getResolutionName_monotone :
  forall v v' : VideoFile.VideoFile,
    VideoFile.width v <= VideoFile.width v' ->
    VideoFile.height v <= VideoFile.height v' ->
    Observe.class_rank (VideoFile.getResolutionName v) <=
    Observe.class_rank (VideoFile.getResolutionName v').
Proof.
  intros v v' Hw Hh.
  pose proof (class_rank_thresholds v) as R.
  pose proof (class_rank_thresholds v') as R'.
  cbv zeta in R, R'. lia.
Qed.

Lemma getResolutionName_monotone_witness :
  (1280 <= 1920 /\ 720 <= 1080) /\
  Observe.class_rank
    (VideoFile.getResolutionName (Spec.sample zero zero 1280 720)) <=
  Observe.class_rank
    (VideoFile.getResolutionName (Spec.sample zero zero 1920 1080)).
Proof.
  split; [lia|].
  apply (getResolutionName_monotone (Spec.sample zero zero 1280 720)
           (Spec.sample zero zero 1920 1080)); cbn; lia.
Defined.

(** X2: the class tells the bounds.  The answer is one of the four
    names; it is "4K" only for frames of at least 3840 by 2160, "SD" only
    for frames narrower than 1280 or lower than 720 (however large the
    other side), "1080p" only from 1920 by 1080 up and short of 4K,
    "720p" only from 1280 by 720 up and short of 1080p. *)
Theorem getResolutionName_bounds :
  forall v : VideoFile.VideoFile,
    let w := VideoFile.width v in
    let h := VideoFile.height v in
    let name := VideoFile.getResolutionName v in
    In name ["4K"; "1080p"; "720p"; "SD"] /\
    (name = "4K" <-> 3840 <= w /\ 2160 <= h) /\
    (name = "1080p" <->
       (1920 <= w /\ 1080 <= h) /\ (w < 3840 \/ h < 2160)) /\
    (name = "720p" <->
       (1280 <= w /\ 720 <= h) /\ (w < 1920 \/ h < 1080)) /\
    (name = "SD" <-> w < 1280 \/ h < 720).
Proof.
  intros v w h name. unfold name, VideoFile.getResolutionName. fold w h.
  repeat match goal with
         | |- context [?a <=? ?b] => destruct (Z.leb_spec a b)
         end; cbn [andb];
    (split; [cbn; tauto|]);
    repeat split; intros; try discriminate; try lia; try reflexivity.
Qed.

(** ** Format validation *)

(** X3: [isValidFormat] is membership in the vector it is given, whatever
    the vector: nothing is valid for the empty vector, and neither the
    order of the vector nor repetitions in it matter. *)
Theorem isValidFormat_membership :
  forall (format : string) (validFormats : list string),
    (MediaFile.isValidFormat format validFormats = true <->
     In format validFormats) /\
    MediaFile.isValidFormat format [] = false /\
    (forall others : list string,
        (forall f, In f validFormats <-> In f others) ->
        MediaFile.isValidFormat format others =
        MediaFile.isValidFormat format validFormats).
Proof.
  intros format validFormats. split; [apply isValidFormat_In|].
  split; [reflexivity|].
  intros others H.
  destruct (MediaFile.isValidFormat format validFormats) eqn:E.
  - apply isValidFormat_In. apply H. now apply isValidFormat_In.
  - destruct (MediaFile.isValidFormat format others) eqn:E'; [|reflexivity].
    apply isValidFormat_In, H, isValidFormat_In in E'. congruence.
Qed.

Lemma isValidFormat_membership_witness :
  (forall f, In f [".mp4"; ".mkv"] <-> In f [".mkv"; ".mp4"; ".mkv"]) /\
  MediaFile.isValidFormat ".mp4" [".mkv"; ".mp4"; ".mkv"] =
  MediaFile.isValidFormat ".mp4" [".mp4"; ".mkv"].
Proof.
  assert (H : forall f, In f [".mp4"; ".mkv"] <-> In f [".mkv"; ".mp4"; ".mkv"])
    by (intros f; cbn; tauto).
  split; [exact H|].
  exact (proj2 (proj2 (isValidFormat_membership ".mp4" [".mp4"; ".mkv"]))
           [".mkv"; ".mp4"; ".mkv"] H).
Defined.

(** X4: the invariant of the class.  An object that the constructor
    returned holds the arguments as given and the four supported formats,
    its format is one of them, and [validateFormat] on it returns: it
    never throws on a constructed object. *)
Theorem constructed_is_valid :
  forall name dur sz fmt w h fps codec (v : VideoFile.VideoFile),
    VideoFile.construct name dur sz fmt w h fps codec = Return v ->
    v = VideoFile.mk_VideoFile name dur sz fmt w h fps codec
          [".mp4"; ".mkv"; ".avi"; ".mov"] /\
    In (VideoFile.format v) (VideoFile.supportedFormats v) /\
    VideoFile.validateFormat v = Return tt.
Proof.
  intros name dur sz fmt w h fps codec v H.
  destruct (MediaFile.isValidFormat fmt VideoFile.default_supportedFormats)
    eqn:E.
  - rewrite (construct_valid _ _ _ _ _ _ _ _ E) in H. injection H as <-.
    split; [reflexivity|]. split.
    + now apply isValidFormat_In.
    + unfold VideoFile.validateFormat.
      cbn [VideoFile.format VideoFile.supportedFormats]. now rewrite E.
  - rewrite (construct_invalid _ _ _ _ _ _ _ _ E) in H. discriminate H.
Qed.

Lemma constructed_is_valid_witness :
  VideoFile.construct "clip" (of_Z 10) (of_Z 2048) ".avi" 640 480 (of_Z 25)
    "MPEG-4" =
  Return (VideoFile.mk_VideoFile "clip" (of_Z 10) (of_Z 2048) ".avi" 640 480
            (of_Z 25) "MPEG-4" VideoFile.default_supportedFormats) /\
  VideoFile.validateFormat
    (VideoFile.mk_VideoFile "clip" (of_Z 10) (of_Z 2048) ".avi" 640 480
       (of_Z 25) "MPEG-4" VideoFile.default_supportedFormats) = Return tt.
Proof.
  assert (H : VideoFile.construct "clip" (of_Z 10) (of_Z 2048) ".avi" 640 480
                (of_Z 25) "MPEG-4" =
              Return (VideoFile.mk_VideoFile "clip" (of_Z 10) (of_Z 2048)
                        ".avi" 640 480 (of_Z 25) "MPEG-4"
                        VideoFile.default_supportedFormats))
    by reflexivity.
  split; [exact H|].
  exact (proj2 (proj2 (constructed_is_valid _ _ _ _ _ _ _ _ _ H))).
Defined.

(** ** Sizes *)

Lemma digits2_pos_bounds (m : positive) :
  2 ^ (Zpos (digits2_pos m) - 1) <= Zpos m < 2 ^ Zpos (digits2_pos m).
Proof.
  induction m as [m IH|m IH|]; cbn [digits2_pos].
  - rewrite Pos2Z.inj_succ.
    replace (Z.succ (Zpos (digits2_pos m)) - 1) with (Z.succ (Zpos (digits2_pos m) - 1)) by lia.
    rewrite !Z.pow_succ_r by lia. lia.
  - rewrite Pos2Z.inj_succ.
    replace (Z.succ (Zpos (digits2_pos m)) - 1) with (Z.succ (Zpos (digits2_pos m) - 1)) by lia.
    rewrite !Z.pow_succ_r by lia. lia.
  - cbn. lia.
Qed.

Lemma valid_finite_shape (s : bool) (m : positive) (e : Z) :
  Observe.valid (S754_finite s m e) = true ->
  Zpos m < 2 ^ 53 /\ -1074 <= e /\ (-1074 < e -> 2 ^ 52 <= Zpos m).
Proof.
  unfold Observe.valid, valid_binary, bounded, canonical_mantissa, fexp, emin.
  rewrite andb_true_iff, Z.eqb_eq, Z.leb_le.
  change (3 - emax - prec) with (-1074). change prec with 53.
  intros [C _]. pose proof (digits2_pos_bounds m) as [L U].
  set (d := Zpos (digits2_pos m)) in *.
  assert (Hd : d <= 53) by lia.
  split; [|split].
  - eapply Z.lt_le_trans; [exact U|]. apply Z.pow_le_mono_r; lia.
  - lia.
  - intros He. assert (d = 53) by lia. subst d. rewrite H in L. exact L.
Qed.

Lemma ge_threshold (m : positive) (e k : Z) :
  0 <= k <= 52 ->
  Observe.valid (S754_finite false m e) = true ->
  (ge (S754_finite false m e) (S754_finite false 4503599627370496 (k - 52)) = true
   <-> 2 ^ k * den (S754_finite false m e) <= num (S754_finite false m e)).
Proof.
  intros Hk V. apply valid_finite_shape in V as (U & Le & N).
  unfold ge, SFleb, SFcompare, num, den.
  assert (P52 : 2 ^ 52 = 4503599627370496) by reflexivity.
  assert (Pk : 0 < 2 ^ k) by (apply Z.pow_pos_nonneg; lia).
  destruct (Z.compare_spec (k - 52) e) as [E|E|E].
  - subst e. rewrite Pos.compare_cont_spec. cbn [Pos.switch_Eq].
    replace (Pos.compare 4503599627370496 m) with (Z.compare (2^52) (Zpos m)) by (rewrite P52; reflexivity).
    assert (A : 2 ^ k * (if 0 <=? k - 52 then 1 else 2 ^ (- (k - 52))) = 2 ^ 52).
    { destruct (Z.leb_spec 0 (k - 52)).
      - assert (k = 52) by lia. subst k. reflexivity.
      - rewrite <- Z.pow_add_r by lia. f_equal. lia. }
    assert (B : (if 0 <=? k - 52 then Zpos m * 2 ^ (k - 52) else Zpos m) = Zpos m).
    { destruct (Z.leb_spec 0 (k - 52)); [|reflexivity].
      assert (k = 52) by lia. subst k. cbn. lia. }
    rewrite A, B.
    destruct (Z.compare_spec (2 ^ 52) (Zpos m)); split; intros; try lia; try reflexivity; try discriminate.
  - split; [intros _|reflexivity].
    assert (M : 2 ^ 52 <= Zpos m) by (apply N; lia).
    destruct (Z.leb_spec 0 e).
    + assert (0 < 2 ^ e) by (apply Z.pow_pos_nonneg; lia).
      assert (2 ^ k <= 2 ^ 52) by (apply Z.pow_le_mono_r; lia).
      nia.
    + rewrite <- Z.pow_add_r by lia.
      assert (2 ^ (k + - e) <= 2 ^ 51) by (apply Z.pow_le_mono_r; lia).
      assert (2 ^ 51 < 2 ^ 52) by reflexivity. lia.
  - split; [discriminate|]. intros H. exfalso.
    destruct (Z.leb_spec 0 e); [lia|].
    rewrite <- Z.pow_add_r in H by lia.
    assert (2 ^ 53 <= 2 ^ (k + - e)) by (apply Z.pow_le_mono_r; lia).
    lia.
Qed.

(** X5: [formatSize] scales no size that is not positive: a negative
    size, a zero, minus infinity and a NaN are all written in " bytes",
    whatever their magnitude. *)
Theorem formatSize_not_positive :
  forall x : double,
    le x zero = true \/ x = S754_nan ->
    MediaFile.formatSize x = to_string x ++ " bytes".
Proof.
  intros x H. unfold MediaFile.formatSize.
  destruct units_value as (-> & -> & ->).
  destruct H as [H| ->]; [|reflexivity].
  destruct x as [s|[]| |[] m e]; try discriminate H; reflexivity.
Qed.

Lemma formatSize_not_positive_witness :
  (le (of_Z (-2048)) zero = true \/ of_Z (-2048) = S754_nan) /\
  MediaFile.formatSize (of_Z (-2048)) = "-2048.000000 bytes".
Proof.
  assert (H : le (of_Z (-2048)) zero = true \/ of_Z (-2048) = S754_nan)
    by (left; vm_compute; reflexivity).
  split; [exact H|].
  rewrite (formatSize_not_positive (of_Z (-2048)) H). vm_compute. reflexivity.
Defined.

(** X6: for every proper binary64 size that is not negative, the
    comparisons of [formatSize] agree with exact arithmetic: the unit is
    bytes below 1024, KB from 1024 up to but excluding 1048576, MB from
    there up to but excluding 1073741824, GB from there on, [num x / den x]
    being the exact value of [x]. *)
Theorem formatSize_exact_thresholds :
  forall x : double,
    Observe.valid x = true -> is_finite x = true -> sign x = false ->
    (num x < 1024 * den x ->
       MediaFile.formatSize x = to_string x ++ " bytes") /\
    (1024 * den x <= num x < 1048576 * den x ->
       MediaFile.formatSize x = to_string (div x MediaFile.KB) ++ " KB") /\
    (1048576 * den x <= num x < 1073741824 * den x ->
       MediaFile.formatSize x = to_string (div x MediaFile.MB) ++ " MB") /\
    (1073741824 * den x <= num x ->
       MediaFile.formatSize x = to_string (div x MediaFile.GB) ++ " GB").
Proof.
  intros x V F S.
  destruct x as [s|s| |s m e]; try discriminate F.
  - cbn in S. subst s. cbn [num den].
    repeat split; intros; try lia; reflexivity.
  - cbn in S. subst s.
    pose proof (ge_threshold m e 10 ltac:(lia) V) as K.
    pose proof (ge_threshold m e 20 ltac:(lia) V) as M.
    pose proof (ge_threshold m e 30 ltac:(lia) V) as G.
    change (2 ^ 10) with 1024 in K. change (2 ^ 20) with 1048576 in M.
    change (2 ^ 30) with 1073741824 in G.
    change (10 - 52) with (-42) in K. change (20 - 52) with (-32) in M.
    change (30 - 52) with (-22) in G.
    destruct units_value as (EK & EM & EG).
    rewrite <- EK in K. rewrite <- EM in M. rewrite <- EG in G.
    set (x := S754_finite false m e) in *.
    pose proof (den_pos x) as D.
    unfold MediaFile.formatSize.
    destruct (ge x MediaFile.GB) eqn:BG;
      destruct (ge x MediaFile.MB) eqn:BM;
      destruct (ge x MediaFile.KB) eqn:BK;
      repeat split; intros; try reflexivity; exfalso;
      repeat match goal with
             | H : true = true <-> _ |- _ => destruct H as [H _]; specialize (H eq_refl)
             | H : false = true <-> _ |- _ =>
                 let H' := fresh in
                 assert (H' : ~ _) by (intros ?X; apply H in X; discriminate X);
                 clear H
             end; lia.
Qed.

Lemma formatSize_exact_thresholds_witness :
  (Observe.valid (of_Z 2048) = true /\ is_finite (of_Z 2048) = true /\
   sign (of_Z 2048) = false /\
   1024 * den (of_Z 2048) <= num (of_Z 2048) < 1048576 * den (of_Z 2048)) /\
  MediaFile.formatSize (of_Z 2048) = "2.000000 KB".
Proof.
  assert (V : Observe.valid (of_Z 2048) = true) by (vm_compute; reflexivity).
  assert (F : is_finite (of_Z 2048) = true) by reflexivity.
  assert (S : sign (of_Z 2048) = false) by reflexivity.
  assert (B : 1024 * den (of_Z 2048) <= num (of_Z 2048)
              < 1048576 * den (of_Z 2048))
    by (split; [apply Z.leb_le | apply Z.ltb_lt]; vm_compute; reflexivity).
  split; [repeat split; try assumption; apply B|].
  rewrite (proj1 (proj2 (formatSize_exact_thresholds (of_Z 2048) V F S)) B).
  vm_compute. reflexivity.
Defined.

(** ** Bitrate and duration *)

(** X7: a duration of zero raises nothing.  The division by zero in
    [calculateBitrate] yields an infinity or a NaN, never a finite number,
    and [displayInfo] still writes the whole report, its Bitrate line
    showing "inf" or "-inf" when the bitrate is an infinity. *)
Theorem calculateBitrate_zero_duration :
  forall (v : VideoFile.VideoFile) (s : bool),
    VideoFile.duration v = S754_zero s ->
    is_finite (VideoFile.calculateBitrate v) = false /\
    (forall s' : bool,
        VideoFile.calculateBitrate v = S754_infinity s' ->
        Double.fixed 2 (VideoFile.calculateBitrate v) =
        if s' then "-inf" else "inf") /\
    exists os',
      VideoFile.displayInfo v fresh = Some os' /\
      written os' =
        Spec.report_with (Double.fixed 2 (VideoFile.calculateBitrate v)) v 0.
Proof.
  intros v s H.
  assert (B : VideoFile.calculateBitrate v = S754_nan \/
              exists s', VideoFile.calculateBitrate v = S754_infinity s').
  { unfold VideoFile.calculateBitrate. rewrite H.
    change (mul (S754_zero s) (of_Z 1000000)) with (S754_zero (xorb s false)).
    destruct (mul (VideoFile.size v) (of_Z 8)) as [s1|s1| |s1 m1 e1];
      cbn; eauto. }
  assert (D : to_int (VideoFile.duration v) = Some 0) by now rewrite H.
  split; [|split].
  - destruct B as [-> | [s' ->]]; reflexivity.
  - intros s' ->. now destruct s'.
  - destruct (displayInfo_report v 0 fresh plain_fresh D) as (os' & E & W).
    exists os'. split; [exact E|]. rewrite W. reflexivity.
Qed.

Lemma calculateBitrate_zero_duration_witness :
  VideoFile.duration (Spec.sample zero (of_Z 2048) 640 480) = S754_zero false /\
  is_finite (VideoFile.calculateBitrate
               (Spec.sample zero (of_Z 2048) 640 480)) = false.
Proof.
  assert (H : VideoFile.duration (Spec.sample zero (of_Z 2048) 640 480) =
              S754_zero false) by reflexivity.
  split; [exact H|].
  exact (proj1 (calculateBitrate_zero_duration
                  (Spec.sample zero (of_Z 2048) 640 480) false H)).
Defined.

(** X8: the Duration line loses nothing of the truncated duration [d]
    when [d] is not negative: the three numbers written, [h], [m] and
    [s], satisfy [d = 3600 h + 60 m + s] with [m] and [s] below 60. *)
Theorem duration_line_recomposes :
  forall (d : Z) (os : ostream),
    0 <= d -> width os = 0%nat ->
    exists h m s : Z,
      written (VideoFile.display_duration d os) =
        written os ++ "Duration: " ++ decimal h ++ ":" ++
        pad_zeros 2 (decimal m) ++ ":" ++ pad_zeros 2 (decimal s) ++ nl /\
      d = 3600 * h + 60 * m + s /\
      0 <= h /\ 0 <= m < 60 /\ 0 <= s < 60.
Proof.
  intros d os Hd Hw.
  exists (Z.quot d 3600), (Z.quot (Z.rem d 3600) 60), (Z.rem d 60).
  split.
  - rewrite display_duration_text by exact Hw. unfold Spec.hms.
    now rewrite !append_assoc.
  - rewrite !Z.quot_div_nonneg, !Z.rem_mod_nonneg by
      (try lia; rewrite ?Z.rem_mod_nonneg by lia;
       try (apply Z.mod_pos_bound; lia)).
    pose proof (Z.div_mod d 3600 ltac:(lia)).
    pose proof (Z.mod_pos_bound d 3600 ltac:(lia)).
    pose proof (Z.div_mod (d mod 3600) 60 ltac:(lia)).
    pose proof (Z.mod_pos_bound (d mod 3600) 60 ltac:(lia)).
    pose proof (Z.mod_pos_bound d 60 ltac:(lia)).
    assert (E : (d mod 3600) mod 60 = d mod 60).
    { apply Z.mod_mod_divide. exists 60. reflexivity. }
    assert (0 <= d / 3600) by (apply Z.div_pos; lia).
    assert (0 <= d mod 3600 / 60 < 60).
    { split; [apply Z.div_pos; lia|]. apply Z.div_lt_upper_bound; lia. }
    lia.
Qed.

Lemma duration_line_recomposes_witness :
  (0 <= 3661 /\ width fresh = 0%nat) /\
  exists h m s : Z,
    written (VideoFile.display_duration 3661 fresh) =
      written fresh ++ "Duration: " ++ decimal h ++ ":" ++
      pad_zeros 2 (decimal m) ++ ":" ++ pad_zeros 2 (decimal s) ++ nl /\
    3661 = 3600 * h + 60 * m + s /\
    0 <= h /\ 0 <= m < 60 /\ 0 <= s < 60.
Proof.
  assert (H : 0 <= 3661) by lia.
  split; [split; [exact H | reflexivity]|].
  exact (duration_line_recomposes 3661 fresh H eq_refl).
Defined.


(** X9: [displayInfo] has a defined behaviour exactly when the duration
    is finite and, cut to an integer, fits an [int]: strictly below 2^31
    seconds for a duration that is not negative, strictly above
    -(2^31 + 1) for a negative one. *)
Theorem displayInfo_defined_iff :
  forall (v : VideoFile.VideoFile) (os : ostream),
    let x := VideoFile.duration v in
    VideoFile.displayInfo v os <> None <->
    is_finite x = true /\
    num x < (if sign x then 2147483649 else 2147483648) * den x.
Proof.
  intros v os x. rewrite <- to_int_defined_iff.
  unfold VideoFile.displayInfo. fold x.
  destruct (to_int x); split; intros H; try discriminate; now elim H.
Qed.

(** ** Calling [displayInfo] again *)

(** The state [displayInfo] leaves the stream in. *)
Lemma displayInfo_state (v : VideoFile.VideoFile) (os os1 : ostream) :
  VideoFile.displayInfo v os = Some os1 ->
  fill os1 = "0"%char /\ width os1 = 0%nat /\
  notation os1 = fixed_notation /\ precision os1 = 2%nat.
Proof.
  unfold VideoFile.displayInfo.
  destruct (to_int (VideoFile.duration v)) as [d|]; [|discriminate].
  intros [= <-]. destruct os as [f w n p wr].
  unfold VideoFile.display_details, VideoFile.display_duration,
    VideoFile.display_header.
  repeat split; run_stream; reflexivity.
Qed.

Lemma display_details_text_fixed (v : VideoFile.VideoFile) (os : ostream) :
  width os = 0%nat -> notation os = fixed_notation -> precision os = 2%nat ->
  written (VideoFile.display_details v os) =
  written os ++
  "Size: " ++ MediaFile.formatSize (VideoFile.size v) ++ nl ++
  "Resolution: " ++ decimal (VideoFile.width v) ++ "x" ++
     decimal (VideoFile.height v) ++
     " (" ++ VideoFile.getResolutionName v ++ ")" ++ nl ++
  "Frame Rate: " ++ Double.fixed 2 (VideoFile.frameRate v) ++ " fps" ++ nl ++
  "Video Codec: " ++ VideoFile.videoCodec v ++ nl ++
  "Bitrate: " ++ Double.fixed 2 (VideoFile.calculateBitrate v) ++ " Mbps" ++ nl ++
  "=====================" ++ nl.
Proof.
  destruct os as [f w n p wr]. cbn [width notation precision].
  intros -> -> ->. unfold VideoFile.display_details. run_stream.
  rewrite !append_assoc. reflexivity.
Qed.

(** X10: [displayInfo] leaves [std::fixed], precision 2 and the fill
    character '0' set on the stream, so it does not write the same text
    twice: called again on the same stream it writes the frame rate in
    fixed notation with two decimals, the rest being the same. *)
Theorem displayInfo_twice :
  forall (v : VideoFile.VideoFile) (d : Z) (os os1 : ostream),
    plain os ->
    to_int (VideoFile.duration v) = Some d ->
    VideoFile.displayInfo v os = Some os1 ->
    (fill os1 = "0"%char /\ notation os1 = fixed_notation /\
     precision os1 = 2%nat) /\
    exists os2,
      VideoFile.displayInfo v os1 = Some os2 /\
      written os2 =
        written os ++ Spec.report v d ++ Observe.report_fixed v d.
Proof.
  intros v d os os1 Hp Hd H1.
  destruct (displayInfo_state v os os1 H1) as (Sf & Sw & Sn & Sp).
  split; [now repeat split|].
  destruct (displayInfo_report v d os Hp Hd) as (os1' & E1 & W1).
  rewrite H1 in E1. injection E1 as <-.
  unfold VideoFile.displayInfo. rewrite Hd. eexists. split; [reflexivity|].
  assert (Hw : forall a, width (VideoFile.display_header v a) = 0%nat)
    by (intros [f w n p wr]; reflexivity).
  assert (Hw' : forall a, width (VideoFile.display_duration d a) = 0%nat)
    by (intros [f w n p wr]; reflexivity).
  assert (Hn : forall a, notation (VideoFile.display_duration d
                            (VideoFile.display_header v a)) = notation a)
    by (intros [f w n p wr]; reflexivity).
  assert (Hpr : forall a, precision (VideoFile.display_duration d
                            (VideoFile.display_header v a)) = precision a)
    by (intros [f w n p wr]; reflexivity).
  rewrite display_details_text_fixed
    by (rewrite ?Hw', ?Hn, ?Hpr; assumption || reflexivity).
  rewrite display_duration_text by apply Hw.
  rewrite display_header_text by exact Sw.
  rewrite W1. unfold Observe.report_fixed.
  rewrite !append_assoc. reflexivity.
Qed.

Lemma displayInfo_twice_witness :
  let v := Spec.sample (of_Z 3661) (of_Z 104857600) 1920 1080 in
  (plain fresh /\ to_int (VideoFile.duration v) = Some 3661) /\
  exists os1 os2,
    VideoFile.displayInfo v fresh = Some os1 /\
    VideoFile.displayInfo v os1 = Some os2 /\
    written os2 = Spec.report v 3661 ++ Observe.report_fixed v 3661.
Proof.
  intros v.
  assert (Hd : to_int (VideoFile.duration v) = Some 3661)
    by (vm_compute; reflexivity).
  split; [split; [exact plain_fresh | exact Hd]|].
  destruct (displayInfo_report v 3661 fresh plain_fresh Hd) as (os1 & E & _).
  destruct (proj2 (displayInfo_twice v 3661 fresh os1 plain_fresh Hd E))
    as (os2 & E2 & W2).
  exists os1, os2. split; [exact E|]. split; [exact E2|]. exact W2.
Defined.

(** ** Reading back what was written *)

Lemma digits_value_of_uint_acc (d : Decimal.uint) (acc : positive) :
  digits_value (Zpos acc) (NilEmpty.string_of_uint d) =
  Zpos (Pos.of_uint_acc d acc).
Proof.
  revert acc. induction d; intros acc; cbn [NilEmpty.string_of_uint
    digits_value Pos.of_uint_acc]; [reflexivity|..];
    match goal with
    | |- digits_value ?a _ = Zpos (Pos.of_uint_acc _ ?b) =>
        replace a with (Zpos b)
          by (match goal with
              | |- context [digit_value ?c] =>
                  let v := eval vm_compute in (digit_value c) in
                  change (digit_value c) with v
              end; lia)
    end; apply IHd.
Qed.

Lemma digits_value_of_uint (d : Decimal.uint) :
  digits_value 0 (NilEmpty.string_of_uint d) = Z.of_N (Pos.of_uint d).
Proof.
  induction d; cbn [NilEmpty.string_of_uint digits_value Pos.of_uint];
    [reflexivity | exact IHd |..];
    match goal with
    | |- digits_value ?a _ = Z.of_N (Npos (Pos.of_uint_acc _ ?b)) =>
        change a with (Zpos b)
    end; apply digits_value_of_uint_acc.
Qed.

Lemma string_of_uint_digits (d : Decimal.uint) :
  all_chars is_digit (NilEmpty.string_of_uint d) = true.
Proof. induction d; cbn; auto. Qed.

Lemma span_digits_append (ds rest : string) :
  all_chars is_digit ds = true ->
  (forall c r, rest = String c r -> is_digit c = false) ->
  span_digits (ds ++ rest) = (ds, rest).
Proof.
  intros Hds Hrest. induction ds as [|c ds IH].
  - cbn [append]. destruct rest as [|c r]; [reflexivity|].
    cbn [span_digits]. now rewrite (Hrest c r eq_refl).
  - cbn [all_chars] in Hds. apply andb_true_iff in Hds as [Hc Hds].
    cbn [append span_digits]. rewrite Hc, (IH Hds). reflexivity.
Qed.

Lemma digit_first (c : ascii) (s : string) :
  is_digit c = true ->
  skipws (String c s) = String c s /\
  take_sign (String c s) = (false, String c s).
Proof.
  destruct c as [[] [] [] [] [] [] [] []]; intros H; try discriminate H;
    split; reflexivity.
Qed.

Lemma decimal_pos (p : positive) :
  decimal (Zpos p) = NilEmpty.string_of_uint (Pos.to_uint p) /\
  exists c s, decimal (Zpos p) = String c s /\ is_digit c = true.
Proof.
  unfold decimal. cbn [Z.to_int NilZero.string_of_int].
  pose proof (Unsigned.to_uint_nonnil p) as N.
  pose proof (string_of_uint_digits (Pos.to_uint p)) as D.
  unfold NilZero.string_of_uint.
  destruct (Pos.to_uint p) eqn:E; [now elim N|..];
    (split; [reflexivity|]); cbn [NilEmpty.string_of_uint] in *;
    eexists; eexists; (split; [reflexivity|]); reflexivity.
Qed.

(** X15: what the report writes for a width or a height, [in >> int]
    reads back: the decimal numeral of any [int], followed by nothing or
    by a character that is not a digit (the "x" of "1920x1080", say), is
    extracted as that very [int], and what follows it is left unread. *)
Theorem extract_int_reads_back :
  forall (z : Z) (rest : string),
    Int.in_range z = true ->
    (forall c r, rest = String c r -> is_digit c = false) ->
    extract_int (decimal z ++ rest) = (Some z, rest).
Proof.
  intros z rest Hz Hrest.
  destruct z as [|p|p].
  - change (decimal 0) with "0". unfold extract_int.
    pose proof (span_digits_append "0" rest eq_refl Hrest) as S.
    cbn [append] in *.
    change (skipws (String "0" rest)) with (String "0" rest).
    change (take_sign (String "0" rest)) with (false, String "0" rest).
    cbv beta iota. rewrite S. reflexivity.
  - destruct (decimal_pos p) as (E & c & s & Es & Hc).
    pose proof (digits_value_of_uint (Pos.to_uint p)) as V.
    rewrite Unsigned.of_to in V. rewrite <- E in V.
    pose proof (string_of_uint_digits (Pos.to_uint p)) as D. rewrite <- E in D.
    unfold extract_int. rewrite Es. cbn [append].
    destruct (digit_first c (s ++ rest) Hc) as [-> ->].
    change (String c (s ++ rest)) with (String c s ++ rest). rewrite <- Es.
    rewrite (span_digits_append _ rest D Hrest).
    rewrite Es at 1. rewrite V.
    replace (1 * Z.of_N (Npos p)) with (Zpos p) by (cbn; lia).
    now rewrite Hz.
  - destruct (decimal_pos p) as (E & c & s & Es & Hc).
    pose proof (digits_value_of_uint (Pos.to_uint p)) as V.
    rewrite Unsigned.of_to in V. rewrite <- E in V.
    pose proof (string_of_uint_digits (Pos.to_uint p)) as D. rewrite <- E in D.
    assert (En : decimal (Zneg p) = String "-" (decimal (Zpos p))) by reflexivity.
    unfold extract_int. rewrite En. cbn [append].
    change (skipws (String "-" (decimal (Z.pos p) ++ rest)))
      with (String "-" (decimal (Z.pos p) ++ rest)).
    cbn [take_sign].
    rewrite (span_digits_append _ rest D Hrest).
    rewrite Es at 1. rewrite V.
    replace (-1 * Z.of_N (Npos p)) with (Zneg p) by (cbn; lia).
    now rewrite Hz.
Qed.

Lemma extract_int_reads_back_witness :
  (Int.in_range 1920 = true /\
   forall c r, "x1080" = String c r -> is_digit c = false) /\
  extract_int (decimal 1920 ++ "x1080") = (Some 1920, "x1080").
Proof.
  assert (H : forall c r, "x1080" = String c r -> is_digit c = false)
    by (intros c r [= <- _]; reflexivity).
  split; [split; [reflexivity | exact H]|].
  exact (extract_int_reads_back 1920 "x1080" eq_refl H).
Defined.

(** ** The validation loop, again *)

Lemma append_empty_r (a : string) : a ++ "" = a.
Proof.
  induction a as [|x a IH]; cbn [append]; [reflexivity | now rewrite IH].
Qed.

(** X16: a validation loop that ends has written its message once
    for each attempt it refused, and nothing else: after [k] refusals the
    stream holds [k] copies of the message more, [k] turns do not end the
    loop and [k + 1] do. *)
Theorem read_loop_writes_message_per_refusal :
  forall (T : Type) (extract : istream -> option T * istream)
         (nonpositive : T -> bool) (message : string)
         (cin rest : istream) (cout cout' : ostream) (x : T),
    width cout = 0%nat ->
    Program.read_positive extract nonpositive message cin cout =
      Some (x, rest, cout') ->
    exists k : nat,
      written cout' = written cout ++ Observe.copies k message /\
      Program.read_loop extract nonpositive message k cin cout = None /\
      Program.read_loop extract nonpositive message (S k) cin cout =
        Some (x, rest, cout').
Proof.
  intros T extract nonpositive message cin rest cout cout' x Hw.
  unfold Program.read_positive. generalize (S (String.length cin)) as fuel.
  intros fuel. revert cin cout Hw.
  induction fuel as [|fuel IH]; intros cin cout Hw H; [discriminate H|].
  cbn [Program.read_loop] in H.
  destruct (Program.attempt extract nonpositive cin) as [[y|] r] eqn:A.
  - injection H as -> -> ->. exists 0%nat.
    cbn [Observe.copies Program.read_loop]. rewrite A, append_empty_r.
    repeat split.
  - apply IH in H as (k & W & N & Hk); [|reflexivity].
    exists (S k). split; [|split].
    + rewrite W, written_put_string by exact Hw.
      cbn [Observe.copies]. now rewrite append_assoc.
    + cbn [Program.read_loop]. rewrite A. exact N.
    + change (Program.read_loop extract nonpositive message (S (S k)) cin cout)
        with (match Program.attempt extract nonpositive cin with
              | (Some x0, rest0) => Some (x0, rest0, cout)
              | (None, rest0) =>
                  Program.read_loop extract nonpositive message (S k)
                    (ignore 10000 LF rest0) (put_string message cout)
              end).
      rewrite A. exact Hk.
Qed.

Lemma read_loop_writes_message_per_refusal_witness :
  (width fresh = 0%nat /\
   Program.read_positive extract_double Program.double_nonpositive
     "Please enter a valid duration: " ("abc" ++ nl ++ "-5" ++ nl ++ "5" ++ nl)
     fresh =
   Some (of_Z 5, nl,
         put_string "Please enter a valid duration: "
           (put_string "Please enter a valid duration: " fresh))) /\
  exists k : nat,
    "Please enter a valid duration: Please enter a valid duration: " =
    Observe.copies k "Please enter a valid duration: ".
Proof.
  assert (H : Program.read_positive extract_double Program.double_nonpositive
                "Please enter a valid duration: "
                ("abc" ++ nl ++ "-5" ++ nl ++ "5" ++ nl) fresh =
              Some (of_Z 5, nl,
                    put_string "Please enter a valid duration: "
                      (put_string "Please enter a valid duration: " fresh)))
    by (vm_compute; reflexivity).
  split; [split; [reflexivity | exact H]|].
  destruct (read_loop_writes_message_per_refusal
              double extract_double Program.double_nonpositive
              "Please enter a valid duration: " _ _ fresh _ _ eq_refl H)
    as (k & W & _).
  exists k. exact W.
Defined.

(** ** Runs of [main] *)

Lemma no_digit_tail (c : ascii) (s : string) :
  Observe.no_digit (String c s) = true ->
  is_digit c = false /\ Observe.no_digit s = true.
Proof.
  unfold Observe.no_digit. cbn [all_chars].
  rewrite andb_true_iff, negb_true_iff. tauto.
Qed.

Lemma no_digit_skipws (s : string) :
  Observe.no_digit s = true -> Observe.no_digit (skipws s) = true.
Proof.
  induction s as [|c s IH]; intros H; [reflexivity|]. cbn [skipws].
  destruct (is_space c); [|exact H]. apply IH. now apply no_digit_tail in H.
Qed.

Lemma no_digit_take_sign (s : string) :
  Observe.no_digit s = true -> Observe.no_digit (snd (take_sign s)) = true.
Proof.
  destruct s as [|c s]; intros H; [reflexivity|].
  pose proof (proj2 (no_digit_tail c s H)) as T.
  destruct c as [[] [] [] [] [] [] [] []]; assumption.
Qed.

Lemma no_digit_skip_zeros (s : string) :
  Observe.no_digit s = true -> skip_zeros s = s.
Proof.
  destruct s as [|c s]; intros H; [reflexivity|].
  destruct c as [[] [] [] [] [] [] [] []]; try reflexivity.
  discriminate H.
Qed.

Lemma no_digit_ignore (n : Z) (delim : ascii) (s : string) :
  Observe.no_digit s = true -> Observe.no_digit (ignore n delim s) = true.
Proof.
  revert n. induction s as [|c s IH]; intros n H; [reflexivity|].
  cbn [ignore]. destruct (n <=? 0); [exact H|].
  apply no_digit_tail in H as [_ H].
  destruct (Ascii.eqb c delim); [exact H | now apply IH].
Qed.

Lemma no_digit_getline (s : string) :
  Observe.no_digit s = true -> Observe.no_digit (snd (getline s)) = true.
Proof.
  induction s as [|c s IH]; intros H; [reflexivity|]. cbn [getline].
  apply no_digit_tail in H as [_ H].
  destruct (Ascii.eqb c LF); [exact H|].
  specialize (IH H). now destruct (getline s).
Qed.

Lemma span_digits_no_digit (s : string) :
  Observe.no_digit s = true -> span_digits s = ("", s).
Proof.
  destruct s as [|c s]; intros H; [reflexivity|].
  apply no_digit_tail in H as [H _]. cbn [span_digits]. now rewrite H.
Qed.

(** Without a digit to read, [in >> int] fails. *)
Lemma extract_int_no_digit (s : istream) :
  Observe.no_digit s = true ->
  fst (extract_int s) = None /\ Observe.no_digit (snd (extract_int s)) = true.
Proof.
  intros H. unfold extract_int.
  pose proof (no_digit_take_sign _ (no_digit_skipws _ H)) as H1.
  destruct (take_sign (skipws s)) as [neg s1]. cbn [snd] in H1.
  rewrite (span_digits_no_digit s1 H1). now split.
Qed.

Lemma no_digit_rev_onto (s acc : string) :
  Observe.no_digit (rev_onto s acc) =
  Observe.no_digit s && Observe.no_digit acc.
Proof.
  revert acc. induction s as [|c s IH]; intros acc; [reflexivity|].
  cbn [rev_onto]. rewrite IH. unfold Observe.no_digit. cbn [all_chars].
  now rewrite andb_assoc, (andb_comm (all_chars _ s)).
Qed.

Lemma no_digit_append (a b : string) :
  Observe.no_digit (a ++ b) = Observe.no_digit a && Observe.no_digit b.
Proof. apply all_chars_append. Qed.

Lemma gather_no_digit (s : string) (st : scan) (after_mark : bool) :
  Observe.no_digit s = true ->
  Observe.no_digit (gathered st) = true ->
  Observe.no_digit (gathered (fst (gather st after_mark s))) = true /\
  Observe.no_digit (snd (gather st after_mark s)) = true.
Proof.
  revert st after_mark.
  induction s as [|c s IH]; intros st after_mark Hs Hst; [now split|].
  pose proof (no_digit_tail c s Hs) as [Hc Hs'].
  assert (Hpush : forall x, is_digit x = false ->
                    Observe.no_digit (String x (gathered st)) = true).
  { intros x Hx. unfold Observe.no_digit in *. cbn [all_chars].
    now rewrite Hx, Hst. }
  cbn [gather]. rewrite Hc.
  destruct (after_mark && is_sign c);
    [apply IH; [exact Hs' | now apply Hpush]|].
  destruct (Ascii.eqb c "." && negb (found_dec st) && negb (found_sci st));
    [apply IH; [exact Hs' | now apply Hpush]|].
  destruct (is_exp_mark c && negb (found_sci st) && found_mantissa st);
    [apply IH; [exact Hs' | now apply Hpush]|].
  now split.
Qed.

Lemma gather_float_no_digit (s : istream) :
  Observe.no_digit s = true ->
  Observe.no_digit (fst (gather_float s)) = true /\
  Observe.no_digit (snd (gather_float s)) = true.
Proof.
  intros H. unfold gather_float.
  pose proof (no_digit_take_sign s H) as H1.
  destruct (take_sign s) as [neg s1]. cbn [snd] in H1.
  rewrite (no_digit_skip_zeros s1 H1).
  assert (St0 : match s1 with
                | String "0" _ => mk_scan "0" true false false
                | _ => mk_scan "" false false false
                end = mk_scan "" false false false).
  { destruct s1 as [|c r]; [reflexivity|].
    destruct c as [[] [] [] [] [] [] [] []]; try reflexivity.
    discriminate H1. }
  rewrite St0.
  pose proof (gather_no_digit s1 (mk_scan "" false false false) false H1
                eq_refl) as [G1 G2].
  destruct (gather (mk_scan "" false false false) false s1) as [st rest].
  cbn [fst snd] in *. split; [|exact G2].
  rewrite no_digit_append, no_digit_rev_onto, G1.
  destruct s as [|c r]; [reflexivity|].
  destruct c as [[] [] [] [] [] [] [] []]; reflexivity.
Qed.

Lemma strtod_all_no_digit (t : string) :
  Observe.no_digit t = true -> strtod_all t = None.
Proof.
  intros H. unfold strtod_all.
  pose proof (no_digit_take_sign t H) as H1.
  destruct (take_sign t) as [neg s1]. cbn [snd] in H1.
  rewrite (span_digits_no_digit s1 H1).
  destruct s1 as [|c r]; [reflexivity|].
  pose proof (proj2 (no_digit_tail c r H1)) as Hr.
  destruct c as [[] [] [] [] [] [] [] []]; try reflexivity.
  now rewrite (span_digits_no_digit r Hr).
Qed.

(** Without a digit to read, [in >> double] fails. *)
Lemma extract_double_no_digit (s : istream) :
  Observe.no_digit s = true ->
  fst (extract_double s) = None /\
  Observe.no_digit (snd (extract_double s)) = true.
Proof.
  intros H. unfold extract_double.
  pose proof (gather_float_no_digit _ (no_digit_skipws _ H)) as [G1 G2].
  destruct (gather_float (skipws s)) as [text rest]. cbn [fst snd] in *.
  rewrite (strtod_all_no_digit text G1). now split.
Qed.

Section NoDigit.

Context {T : Type}.
Variable extract : istream -> option T * istream.
Variable nonpositive : T -> bool.
Variable message : string.

Hypothesis extract_no_digit :
  forall s, Observe.no_digit s = true ->
            fst (extract s) = None /\ Observe.no_digit (snd (extract s)) = true.

Lemma read_loop_no_digit (fuel : nat) (cin : istream) (cout : ostream) :
  Observe.no_digit cin = true ->
  Program.read_loop extract nonpositive message fuel cin cout = None.
Proof.
  revert cin cout. induction fuel as [|fuel IH]; intros cin cout H;
    [reflexivity|].
  cbn [Program.read_loop]. unfold Program.attempt.
  destruct (extract_no_digit cin H) as [E R].
  destruct (extract cin) as [[x|] rest]; cbn [fst snd] in *; [discriminate E|].
  apply IH. now apply no_digit_ignore.
Qed.

End NoDigit.

(** X11: the program never exits on an input that holds no digit after
    its first two lines, an empty or exhausted input included: it prompts
    for the duration for ever.  The format is not looked at before the
    numbers are read, so an unsupported format is not reported either. *)
Theorem main_hangs_without_digits :
  forall stdin : istream,
    Observe.no_digit (snd (getline (snd (getline stdin)))) = true ->
    Program.main stdin = Program.Hangs.
Proof.
  intros stdin H. unfold Program.main, Program.collect.
  destruct (getline stdin) as [filename cin1]. cbn [snd] in H.
  destruct (getline cin1) as [format cin2]. cbn [snd] in H.
  unfold Program.read_positive at 1.
  rewrite (read_loop_no_digit extract_double _ _ extract_double_no_digit)
    by exact H.
  reflexivity.
Qed.

Lemma main_hangs_without_digits_witness :
  Observe.no_digit
    (snd (getline (snd (getline ("movie" ++ nl ++ ".wmv" ++ nl ++
                                 "abc" ++ nl))))) = true /\
  Program.main ("movie" ++ nl ++ ".wmv" ++ nl ++ "abc" ++ nl) = Program.Hangs.
Proof.
  assert (H : Observe.no_digit
                (snd (getline (snd (getline ("movie" ++ nl ++ ".wmv" ++ nl ++
                                             "abc" ++ nl))))) = true)
    by (vm_compute; reflexivity).
  split; [exact H|].
  exact (main_hangs_without_digits _ H).
Defined.

Lemma getline_line (line rest : string) :
  occurs LF line = false -> getline (line ++ nl ++ rest) = (line, rest).
Proof.
  induction line as [|c line IH]; intros H; [reflexivity|].
  cbn [occurs] in H. apply orb_false_iff in H as [Hc Hl].
  cbn [append getline]. rewrite Hc. cbn [append] in IH. now rewrite IH.
Qed.

Lemma getline_no_LF (s : istream) : occurs LF (fst (getline s)) = false.
Proof.
  induction s as [|c s IH]; [reflexivity|]. cbn [getline].
  destruct (Ascii.eqb c LF) eqn:E; [reflexivity|].
  destruct (getline s) as [line rest]. cbn [fst occurs] in *.
  now rewrite E, IH.
Qed.

(** A session without a refused value: what [collect] hands over. *)
Lemma collect_first_try (name fmt : string) (r0 r5 : istream)
    (dur sz : double) (w h : Z) (fps : double) :
  occurs LF name = false -> occurs LF fmt = false ->
  Observe.first_try r0 dur sz w h fps r5 ->
  exists cout,
    Program.collect (name ++ nl ++ fmt ++ nl ++ r0) fresh =
      Some (Program.mk_inputs name fmt dur sz w h fps
              (fst (getline (ignore_one r5))), cout) /\
    plain cout /\ written cout = Observe.prompts.
Proof.
  intros Hn Hf (r1 & r2 & r3 & r4 & (E1 & P1) & (E2 & P2) & (E3 & P3) &
                (E4 & P4) & (E5 & P5)).
  unfold Program.collect.
  rewrite (getline_line name _ Hn), (getline_line fmt _ Hf).
  rewrite (read_positive_accept _ _ _ r0 r1 _ dur)
    by (apply attempt_accepts; now split).
  cbn [Program.bind].
  rewrite (read_positive_accept _ _ _ r1 r2 _ sz)
    by (apply attempt_accepts; now split).
  cbn [Program.bind].
  rewrite (read_positive_accept _ _ _ r2 r3 _ w)
    by (apply attempt_accepts; split;
        [assumption | unfold Program.int_nonpositive; now apply Z.leb_gt]).
  cbn [Program.bind].
  rewrite (read_positive_accept _ _ _ r3 r4 _ h)
    by (apply attempt_accepts; split;
        [assumption | unfold Program.int_nonpositive; now apply Z.leb_gt]).
  cbn [Program.bind].
  rewrite (read_positive_accept _ _ _ r4 r5 _ fps)
    by (apply attempt_accepts; now split).
  cbn [Program.bind].
  destruct (getline (ignore_one r5)) as [codec rest]. cbn [fst].
  eexists. split; [reflexivity|]. split; [repeat split|].
  vm_compute. reflexivity.
Qed.

(** X12: a session in which no value is refused.  When the first two
    lines are the name and the format and the five numeric reads each
    succeed at once, then: with an unsupported format standard output is
    the nine prompts alone, the error message goes to standard error and
    the status is 1; with a supported format and a duration below 2^31 =
    2147483648 seconds standard output is the nine prompts, with no retry
    message, followed by the report of exactly the values read (the codec
    being the line left after dropping one character behind the frame
    rate), and the status is 0; with a supported format and a duration of
    2^31 seconds or more the behaviour is undefined. *)
Theorem main_first_try :
  forall (name fmt : string) (r0 r5 : istream) (dur sz : double) (w h : Z)
         (fps : double),
    occurs LF name = false -> occurs LF fmt = false ->
    Observe.first_try r0 dur sz w h fps r5 ->
    let stdin := name ++ nl ++ fmt ++ nl ++ r0 in
    let codec := fst (getline (ignore_one r5)) in
    (~ Spec.supported fmt ->
       Program.main stdin =
       Program.Exits
         (Program.mk_exit Observe.prompts
            ("Error: " ++ VideoFile.unsupported_message ++ nl) 1)) /\
    (Spec.supported fmt ->
       num dur < 2147483648 * den dur ->
       Program.main stdin =
       Program.Exits
         (Program.mk_exit
            (Observe.prompts ++
             Spec.report
               (VideoFile.mk_VideoFile name dur sz fmt w h fps codec
                  VideoFile.default_supportedFormats) (num dur / den dur))
            "" 0)) /\
    (Spec.supported fmt ->
       2147483648 * den dur <= num dur ->
       Program.main stdin = Program.Undefined).
Proof.
  intros name fmt r0 r5 dur sz w h fps Hn Hf T stdin codec.
  destruct (collect_first_try name fmt r0 r5 dur sz w h fps Hn Hf T)
    as (cout & C & P & W).
  assert (Pos : is_finite dur = true /\ sign dur = false).
  { destruct T as (r1 & _ & _ & _ & (E1 & P1) & _).
    destruct (positive_finite dur (extract_double_finite _ _ _ E1) P1)
      as (m & e & ->). now split. }
  destruct Pos as [Fin Sgn].
  unfold Program.main, stdin. rewrite C. unfold Program.construct_from.
  cbn [Program.in_filename Program.in_duration Program.in_size
       Program.in_format Program.in_width Program.in_height
       Program.in_frameRate Program.in_codec].
  split; [|split].
  - intros N.
    assert (V : MediaFile.isValidFormat fmt VideoFile.default_supportedFormats
                = false).
    { destruct (MediaFile.isValidFormat _ _) eqn:E; [|reflexivity].
      apply isValidFormat_In, supported_In in E. now elim N. }
    rewrite (construct_invalid _ _ _ _ _ _ _ _ V), W. reflexivity.
  - intros S B. rewrite (construct_supported _ _ _ _ _ _ _ _ S).
    fold codec.
    assert (Hd : to_int dur = Some (num dur / den dur)).
    { apply to_int_nonneg; [exact Sgn|]. split; [exact Fin|].
      now rewrite Sgn. }
    destruct (displayInfo_report
                (VideoFile.mk_VideoFile name dur sz fmt w h fps codec
                   VideoFile.default_supportedFormats) _ cout P Hd)
      as (os' & E & W').
    rewrite E, W', W. reflexivity.
  - intros S B. rewrite (construct_supported _ _ _ _ _ _ _ _ S).
    unfold VideoFile.displayInfo. cbn [VideoFile.duration].
    destruct (to_int dur) as [d|] eqn:Hd; [|reflexivity].
    assert (X : to_int dur <> None) by (rewrite Hd; discriminate).
    apply to_int_defined_iff in X as [_ X]. rewrite Sgn in X. lia.
Qed.

Lemma main_first_try_witness :
  let r0 := "3661" ++ nl ++ "104857600" ++ nl ++ "1920" ++ nl ++ "1080" ++ nl ++
            "29.97" ++ nl ++ "H.264" ++ nl in
  let fps := S754_finite false 8435805052018360 (-48) in
  (occurs LF "movie" = false /\ occurs LF ".mp4" = false /\
   Observe.first_try r0 (of_Z 3661) (of_Z 104857600) 1920 1080 fps
     (nl ++ "H.264" ++ nl) /\
   Spec.supported ".mp4" /\
   num (of_Z 3661) < 2147483648 * den (of_Z 3661)) /\
  Program.main ("movie" ++ nl ++ ".mp4" ++ nl ++ r0) =
  Program.Exits
    (Program.mk_exit
       (Observe.prompts ++
        Spec.report
          (VideoFile.mk_VideoFile "movie" (of_Z 3661) (of_Z 104857600) ".mp4"
             1920 1080 fps "H.264" VideoFile.default_supportedFormats)
          (num (of_Z 3661) / den (of_Z 3661)))
       "" 0).
Proof.
  intros r0 fps.
  assert (T : Observe.first_try r0 (of_Z 3661) (of_Z 104857600) 1920 1080 fps
                (nl ++ "H.264" ++ nl)).
  { exists (nl ++ "104857600" ++ nl ++ "1920" ++ nl ++ "1080" ++ nl ++
            "29.97" ++ nl ++ "H.264" ++ nl),
           (nl ++ "1920" ++ nl ++ "1080" ++ nl ++ "29.97" ++ nl ++
            "H.264" ++ nl),
           (nl ++ "1080" ++ nl ++ "29.97" ++ nl ++ "H.264" ++ nl),
           (nl ++ "29.97" ++ nl ++ "H.264" ++ nl).
    repeat split; try (vm_compute; reflexivity); lia. }
  assert (S : Spec.supported ".mp4") by (left; reflexivity).
  assert (B : num (of_Z 3661) < 2147483648 * den (of_Z 3661))
    by (apply Z.ltb_lt; vm_compute; reflexivity).
  split; [repeat split; assumption|].
  exact (proj1 (proj2 (main_first_try "movie" ".mp4" r0 (nl ++ "H.264" ++ nl)
                         (of_Z 3661) (of_Z 104857600) 1920 1080 fps
                         eq_refl eq_refl T)) S B).
Defined.

(** X13: the codec is what is left of the frame rate's own line.  The
    one character right behind the frame rate is dropped, whatever it is,
    and the codec is the text from there to the next line feed: the line
    feed itself in the usual case (the codec is then the next line), but
    after "29.97 fps" the codec is "fps" and the line below is not read. *)
Theorem codec_is_rest_of_frame_rate_line :
  forall (name fmt : string) (r0 : istream) (dur sz : double) (w h : Z)
         (fps : double) (c : ascii) (line tail : string),
    occurs LF name = false -> occurs LF fmt = false ->
    occurs LF line = false ->
    Observe.first_try r0 dur sz w h fps (String c (line ++ nl ++ tail)) ->
    exists i cout,
      Program.collect (name ++ nl ++ fmt ++ nl ++ r0) fresh = Some (i, cout) /\
      Program.in_codec i = line.
Proof.
  intros name fmt r0 dur sz w h fps c line tail Hn Hf Hl T.
  destruct (collect_first_try name fmt r0 _ dur sz w h fps Hn Hf T)
    as (cout & C & _).
  eexists. exists cout. split; [exact C|].
  cbn [Program.in_codec ignore_one]. now rewrite (getline_line line tail Hl).
Qed.


Lemma codec_is_rest_of_frame_rate_line_witness :
  let r0 := "10 2048 640 480 29.97 fps" ++ nl ++ "H.264" ++ nl in
  let fps := S754_finite false 8435805052018360 (-48) in
  (occurs LF "movie" = false /\ occurs LF ".mp4" = false /\
   occurs LF "fps" = false /\
   Observe.first_try r0 (of_Z 10) (of_Z 2048) 640 480 fps
     (String " " ("fps" ++ nl ++ "H.264" ++ nl))) /\
  exists i cout,
    Program.collect ("movie" ++ nl ++ ".mp4" ++ nl ++ r0) fresh =
      Some (i, cout) /\
    Program.in_codec i = "fps".
Proof.
  intros r0 fps.
  assert (T : Observe.first_try r0 (of_Z 10) (of_Z 2048) 640 480 fps
                (String " " ("fps" ++ nl ++ "H.264" ++ nl))).
  { exists (" 2048 640 480 29.97 fps" ++ nl ++ "H.264" ++ nl),
           (" 640 480 29.97 fps" ++ nl ++ "H.264" ++ nl),
           (" 480 29.97 fps" ++ nl ++ "H.264" ++ nl),
           (" 29.97 fps" ++ nl ++ "H.264" ++ nl).
    repeat split; try (vm_compute; reflexivity); lia. }
  split; [repeat split; try reflexivity; exact T|].
  exact (codec_is_rest_of_frame_rate_line "movie" ".mp4" r0 (of_Z 10)
           (of_Z 2048) 640 480 fps " " "fps" ("H.264" ++ nl)
           eq_refl eq_refl eq_refl T).
Defined.


(** X14: what [collect] hands over.  The file name and the format are
    the first and the second line of the input as they are, empty lines
    included; no text field holds a line feed; width and height lie
    between 1 and [INT_MAX]. *)
Theorem collect_invariants :
  forall (stdin : istream) (cout cout' : ostream) (i : Program.inputs),
    Program.collect stdin cout = Some (i, cout') ->
    Program.in_filename i = fst (getline stdin) /\
    Program.in_format i = fst (getline (snd (getline stdin))) /\
    occurs LF (Program.in_filename i) = false /\
    occurs LF (Program.in_format i) = false /\
    occurs LF (Program.in_codec i) = false /\
    1 <= Program.in_width i <= Int.INT_MAX /\
    1 <= Program.in_height i <= Int.INT_MAX.
Proof.
  intros stdin cout cout' i C.
  pose proof (proj1 (collect_result _ _ _ _ C)) as (_ & _ & Pw & Ph & _).
  revert C. unfold Program.collect.
  pose proof (getline_no_LF stdin) as L1.
  destruct (getline stdin) as [filename cin1]. cbn [fst snd] in *.
  pose proof (getline_no_LF cin1) as L2.
  destruct (getline cin1) as [format cin2]. cbn [fst snd] in *.
  repeat match goal with
  | |- Program.bind (Program.read_positive ?e ?n ?m ?i ?o) _ = _ -> _ =>
      let R := fresh "R" in
      destruct (Program.read_positive e n m i o) as [[[? ?] ?]|]
        eqn:R; [cbn [Program.bind]|discriminate]
  end.
  match goal with
  | |- context [getline (ignore_one ?c)] =>
      pose proof (getline_no_LF (ignore_one c)) as L3;
      destruct (getline (ignore_one c)) as [codec cin8]
  end.
  cbn [fst] in L3. intros [= <- <-].
  cbn [Program.in_filename Program.in_format Program.in_codec
       Program.in_width Program.in_height] in *.
  repeat match goal with
  | R : Program.read_positive extract_int _ _ _ _ = Some (?z, _, _) |- _ =>
      apply read_loop_result in R as (_ & (? & R) & _)
  end.
  assert (Rng : forall s0 z0 r0, extract_int s0 = (Some z0, r0) ->
                                 z0 <= Int.INT_MAX).
  { clear. intros s z r. unfold extract_int.
    destruct (take_sign (skipws s)) as [neg s1].
    destruct (span_digits s1) as [[|c ds] rest]; [discriminate|].
    destruct (Int.in_range _) eqn:B; [|discriminate].
    intros [= <- _]. unfold Int.in_range in B.
    apply andb_true_iff in B as [_ B]. now apply Z.leb_le in B. }
  repeat split; try assumption; try lia; eapply Rng; eassumption.
Qed.

Lemma collect_invariants_witness :
  let stdin := "" ++ nl ++ ".wmv" ++ nl ++ "10" ++ nl ++ "2048" ++ nl ++
               "640" ++ nl ++ "480" ++ nl ++ "25" ++ nl ++ "H.264" ++ nl in
  let i := Program.mk_inputs "" ".wmv" (of_Z 10) (of_Z 2048) 640 480
             (of_Z 25) "H.264" in
  let cout := mk_ostream " " 0 general_notation 6 Observe.prompts in
  Program.collect stdin fresh = Some (i, cout) /\
  Program.in_filename i = fst (getline stdin) /\
  1 <= Program.in_width i <= Int.INT_MAX.
Proof.
  intros stdin i cout.
  assert (C : Program.collect stdin fresh = Some (i, cout))
    by (vm_compute; reflexivity).
  split; [exact C|].
  destruct (collect_invariants stdin fresh cout i C)
    as (F & _ & _ & _ & _ & W & _).
  split; [exact F | exact W].
Defined.

(** X17: a run of [main] has undefined behaviour in one case only: the
    inputs were collected, the format is supported, and the duration is
    2^31 seconds or more, so that [displayInfo] converts it to an [int]
    it does not fit.  With an unsupported format the same duration is
    harmless. *)
Theorem main_undefined_iff :
  forall stdin : istream,
    Program.main stdin = Program.Undefined <->
    exists (i : Program.inputs) (cout : ostream),
      Program.collect stdin fresh = Some (i, cout) /\
      Spec.supported (Program.in_format i) /\
      2147483648 * den (Program.in_duration i) <= num (Program.in_duration i).
Proof.
  intros stdin. unfold Program.main.
  destruct (Program.collect stdin fresh) as [[i cout]|] eqn:C.
  - pose proof (proj1 (collect_result _ _ _ _ C)) as ((m & e & Ed) & _).
    assert (U : to_int (Program.in_duration i) = None <->
                2147483648 * den (Program.in_duration i) <=
                num (Program.in_duration i)).
    { pose proof (to_int_defined_iff (Program.in_duration i)) as I.
      rewrite Ed in *. cbn [is_finite sign] in I.
      destruct (to_int (S754_finite false m e)).
      - split; [discriminate|]. intros H.
        assert (X : Some z <> None) by discriminate. apply I in X. lia.
      - split; [intros _|reflexivity].
        destruct (Z.lt_ge_cases (num (S754_finite false m e))
                    (2147483648 * den (S754_finite false m e))) as [L|L];
          [|exact L].
        assert (X : @None Z <> None) by (apply I; now split). now elim X. }
    unfold Program.construct_from.
    destruct (MediaFile.isValidFormat (Program.in_format i)
                VideoFile.default_supportedFormats) eqn:V.
    + rewrite (construct_valid _ _ _ _ _ _ _ _ V).
      unfold VideoFile.displayInfo. cbn [VideoFile.duration].
      split.
      * destruct (to_int (Program.in_duration i)) eqn:TI; [discriminate|].
        intros _. exists i, cout. split; [reflexivity|]. split.
        -- now apply supported_In, isValidFormat_In.
        -- now apply U.
      * intros (i' & cout'' & [= <- <-] & _ & B). apply U in B. now rewrite B.
    + rewrite (construct_invalid _ _ _ _ _ _ _ _ V). split; [discriminate|].
      intros (i' & cout'' & [= <- <-] & Hs & _).
      apply supported_In, isValidFormat_In in Hs. congruence.
  - split; [discriminate|]. intros (i & cout & [=] & _).
Qed.
